(** * Trivia CLI: a shallow embedding of [trivia.js]

    The program is a single event-driven script around one global
    [gameState] object.  The embedding follows it function by function:
    the JavaScript primitives the script relies on ([parseInt], [trim],
    [toLowerCase], number division), the data ([Question], [GameState]),
    a small state-and-exception monad for the function bodies, and the
    Node event loop (readline's pending question callback, [setInterval]
    and [setTimeout] queues) as a step function on a [World]. *)

From Stdlib Require Import ZArith QArith Qround String Ascii List Bool Lia.
From stdpp Require Import gmap strings list fin_maps.

Open Scope string_scope.
Open Scope list_scope.
Open Scope Z_scope.

(* ===================================================================== *)
(** ** JavaScript primitives *)
(* ===================================================================== *)

Module JS.

(** A string is held as its UTF-8 bytes.  Every string the script handles
    comes decoded from UTF-8 (the lines of the terminal, the question
    file), so each has such an encoding; the literals the script compares
    with ("quit", "skip", "yes", "no", "1".."3") are ASCII. *)

(** The [StrWhiteSpaceChar]s of one byte: TAB, LF, VT, FF, CR, SP. *)
Definition is_white_space (c : ascii) : bool :=
  let n := Z.of_N (N_of_ascii c) in
  ((9 <=? n) && (n <=? 13)) || (n =? 32).

(** The one of two bytes: U+00A0 (C2 A0). *)
Definition is_white_space2 (c1 c2 : ascii) : bool :=
  ((N_of_ascii c1 =? 194) && (N_of_ascii c2 =? 160))%N.

(** Those of three bytes: U+1680 (E1 9A 80), U+2000..U+200A (E2 80 80..8A),
    U+2028 and U+2029 (E2 80 A8, E2 80 A9), U+202F (E2 80 AF),
    U+205F (E2 81 9F), U+3000 (E3 80 80) and U+FEFF (EF BB BF). *)
Definition is_white_space3 (c1 c2 c3 : ascii) : bool :=
  let a := N_of_ascii c1 in
  let b := N_of_ascii c2 in
  let c := N_of_ascii c3 in
  (((a =? 225) && (b =? 154) && (c =? 128))
   || ((a =? 226) && (b =? 128)
       && (((128 <=? c) && (c <=? 138)) || (c =? 168) || (c =? 169) || (c =? 175)))
   || ((a =? 226) && (b =? 129) && (c =? 159))
   || ((a =? 227) && (b =? 128) && (c =? 128))
   || ((a =? 239) && (b =? 187) && (c =? 191)))%N.

(** The first bytes of the white space characters of two and three bytes. *)
Definition starts_wide_space (c : ascii) : bool :=
  let a := N_of_ascii c in
  ((a =? 194) || (a =? 225) || (a =? 226) || (a =? 227) || (a =? 239))%N.

(** [String.prototype.trimStart]: the leading [StrWhiteSpaceChar]s go. *)
Fixpoint trimStart (s : string) : string :=
  match s with
  | String c1 s1 =>
      if is_white_space c1 then trimStart s1
      else if starts_wide_space c1 then
        match s1 with
        | String c2 s2 =>
            if is_white_space2 c1 c2 then trimStart s2
            else
              match s2 with
              | String c3 s3 =>
                  if is_white_space3 c1 c2 c3 then trimStart s3 else s
              | EmptyString => s
              end
        | EmptyString => s
        end
      else s
  | EmptyString => EmptyString
  end.

(** [String.prototype.trimEnd]: what is left is cut where only white
    space follows.  No white space character starts with a continuation
    byte, so the rest of a string from inside a character on is never
    taken for white space. *)
Fixpoint trimEnd (s : string) : string :=
  match s with
  | String c s' =>
      match trimStart s with
      | EmptyString => EmptyString
      | _ => String c (trimEnd s')
      end
  | EmptyString => EmptyString
  end.

(** [String.prototype.trim] *)
Definition trim (s : string) : string := trimEnd (trimStart s).

Definition lower_char (c : ascii) : ascii :=
  let n := N_of_ascii c in
  if ((65 <=? n) && (n <=? 90))%N then ascii_of_N (n + 32) else c.

(** U+212A, the Kelvin sign (E2 84 AA), whose lower case is "k". *)
Definition is_kelvin_sign (c1 c2 c3 : ascii) : bool :=
  ((N_of_ascii c1 =? 226) && (N_of_ascii c2 =? 132) && (N_of_ascii c3 =? 170))%N.

(** [String.prototype.toLowerCase] on the characters whose lower case is
    an ASCII letter: "A".."Z" and the Kelvin sign.  Every other character
    is left as it is; the script's may turn it into another character
    that is not ASCII either (or, for U+0130, into "i" followed by one),
    and since the script only compares the result with ASCII literals,
    every such comparison comes out the same. *)
Fixpoint toLowerCase (s : string) : string :=
  match s with
  | String c1 s1 =>
      match s1 with
      | String c2 (String c3 s3) =>
          if is_kelvin_sign c1 c2 c3 then String "k" (toLowerCase s3)
          else String (lower_char c1) (toLowerCase s1)
      | _ => String (lower_char c1) (toLowerCase s1)
      end
  | EmptyString => EmptyString
  end.

(** Value of a character as a digit in some radix up to 36. *)
Definition digit_value (c : ascii) : option Z :=
  let n := Z.of_N (N_of_ascii c) in
  if (48 <=? n) && (n <=? 57) then Some (n - 48)
  else if (97 <=? n) && (n <=? 122) then Some (n - 87)
  else if (65 <=? n) && (n <=? 90) then Some (n - 55)
  else None.

Definition radix_digit (R : Z) (c : ascii) : option Z :=
  match digit_value c with
  | Some d => if d <? R then Some d else None
  | None => None
  end.

(** The longest prefix of [s] made of radix-[R] digits. *)
Fixpoint digits_prefix (R : Z) (s : string) : list Z :=
  match s with
  | String c s' =>
      match radix_digit R c with
      | Some d => d :: digits_prefix R s'
      | None => []
      end
  | EmptyString => []
  end.

Definition digits_value (R : Z) (ds : list Z) : Z :=
  fold_left (fun acc d => acc * R + d) ds 0.

Definition strip_sign (s : string) : Z * string :=
  match s with
  | String "-" r => (-1, r)
  | String "+" r => (1, r)
  | _ => (1, s)
  end.

Definition strip_hex_prefix (s : string) : Z * string :=
  match s with
  | String "0" (String "x" r) => (16, r)
  | String "0" (String "X" r) => (16, r)
  | _ => (10, s)
  end.

(** [parseInt(s)] with no radix argument (ECMA-262, 19.2.5): leading
    white space is skipped, then an optional sign, then an optional
    [0x]/[0X] prefix that switches to radix 16, then the longest run of
    digits; [None] is [NaN].  The value is the exact integer; a double
    holds it exactly up to 2^53, and beyond that the rounded double is
    still larger than any array length, which is all the caller compares
    it with. *)
Definition parseInt (s : string) : option Z :=
  let '(sign, s1) := strip_sign (trimStart s) in
  let '(R, s2) := strip_hex_prefix s1 in
  match digits_prefix R s2 with
  | [] => None
  | ds => Some (sign * digits_value R ds)
  end.

(** Numbers that come out of a division: a finite value, the two
    infinities, or NaN.  The finite case carries the exact quotient (the
    script rounds it to a double); the other three cases are exact. *)
Inductive number :=
| Finite (q : Q)
| PosInfinity
| NegInfinity
| NaN.

(** [a / b] for integer-valued [a] and [b]; a zero [b] is [+0]. *)
Definition div (a b : Z) : number :=
  if b =? 0 then
    if a =? 0 then NaN else if 0 <? a then PosInfinity else NegInfinity
  else Finite (inject_Z a / inject_Z b)%Q.

(** [x * k] for a positive integer [k]. *)
Definition mul (x : number) (k : Z) : number :=
  match x with
  | Finite q => Finite (q * inject_Z k)%Q
  | other => other
  end.

(** [x >= k]; every comparison with NaN is false. *)
Definition ge (x : number) (k : Z) : bool :=
  match x with
  | Finite q => Qle_bool (inject_Z k) q
  | PosInfinity => true
  | NegInfinity => false
  | NaN => false
  end.

Definition is_finite (x : number) : bool :=
  match x with Finite _ => true | _ => false end.

(** [a < b / 2] on integer-valued [a], [b]. *)
Definition lt_half (a b : Z) : bool :=
  negb (Qle_bool (inject_Z b / 2)%Q (inject_Z a)).

(** [Math.floor(p * 0.5)] on an integer-valued [p]. *)
Definition floor_half (p : Z) : Z := Qfloor (inject_Z p * (1 # 2))%Q.

(** [Math.floor(ms / 1000)] *)
Definition floor_seconds (ms : Z) : Z := Qfloor (inject_Z ms / 1000)%Q.

Inductive error := ReferenceError | TypeError.

End JS.

(* ===================================================================== *)
(** ** Data *)
(* ===================================================================== *)

(** One entry of [questions.json] (or of the built-in fallback list). *)
Record Question := mkQuestion {
  question : string;
  options : list string;
  answer : Z;
  category : string;
  points : Z
}.

(** The global [gameState] object. [timerId] is the handle returned by
    [setInterval], or [None] for [null]. *)
Record GameState := mkGameState {
  currentQuestionIndex : Z;
  score : Z;
  totalTime : Z;
  gameActive : bool;
  questions : list Question;
  timePerQuestion : Z;
  timerId : option nat
}.

(** The value of [gameState] when the script is loaded. *)
Definition initial_gameState : GameState :=
  {| currentQuestionIndex := 0; score := 0; totalTime := 0;
     gameActive := false; questions := []; timePerQuestion := 30;
     timerId := None |}.

(** The fallback list of [loadQuestions]. *)
Definition fallback_questions : list Question :=
  [ {| question := "What is 2 + 2?"; options := ["3"; "4"; "5"; "6"];
       answer := 1; category := "Math"; points := 5 |};
    {| question := "What color is the sky?";
       options := ["Red"; "Green"; "Blue"; "Yellow"];
       answer := 2; category := "Science"; points := 5 |} ].

(** [array[i]] for an integer-valued [i]: [None] is [undefined]. *)
Definition element_at {A : Type} (l : list A) (i : Z) : option A :=
  if i <? 0 then None else l !! Z.to_nat i.

(** *** The report of [endGame] *)

(** One value of the [categoryStats] object. *)
Record CategoryStat := mkStat { stat_questions : Z; stat_points : Z }.

(** What the "Average time per question" line interpolates: the literal
    [0], or [toFixed(1)] of the quotient (carried unformatted). *)
Inductive Average :=
| AverageZero
| AverageFixed (quotient : JS.number).

(** 'A+', 'A', 'B', 'C', 'D', 'F' (each followed by its emoji). *)
Inductive Grade := GradeAPlus | GradeA | GradeB | GradeC | GradeD | GradeF.

(** The four lines of FINAL FEEDBACK. *)
Inductive Feedback := Outstanding | GreatJob | GoodEffort | KeepLearning.

Record Report := mkReport {
  totalQuestions : Z;
  questionsAnswered : Z;
  totalScore : Z;
  timeTaken : Z;
  averageTime : Average;
  grade : Grade;
  breakdown : gmap string CategoryStat;
  feedback : Feedback
}.

(** [(score / totalPossible) * 100], the expression both [calculateGrade]
    and [endGame] bind to their local [percentage]. *)
Definition percentage_of (score totalPossible : Z) : JS.number :=
  JS.mul (JS.div score totalPossible) 100.

(** [calculateGrade(score, totalPossible)] *)
Definition calculateGrade (score totalPossible : Z) : Grade :=
  let percentage := percentage_of score totalPossible in
  if JS.ge percentage 90 then GradeAPlus
  else if JS.ge percentage 80 then GradeA
  else if JS.ge percentage 70 then GradeB
  else if JS.ge percentage 60 then GradeC
  else if JS.ge percentage 50 then GradeD
  else GradeF.

(** [array.filter((q, i) => p(q, i))], the index starting at [i0]. *)
Fixpoint filter_from {A : Type} (p : A -> Z -> bool) (i0 : Z) (l : list A) : list A :=
  match l with
  | [] => []
  | x :: l' =>
      if p x i0 then x :: filter_from p (i0 + 1) l' else filter_from p (i0 + 1) l'
  end.

Definition filter_indexed {A : Type} (p : A -> Z -> bool) (l : list A) : list A :=
  filter_from p 0 l.

(** The property names every object literal inherits from
    [Object.prototype]; each of them reads as a truthy value on [{}]. *)
Definition Object_prototype_keys : list string :=
  [ "constructor"; "__defineGetter__"; "__defineSetter__"; "hasOwnProperty";
    "__lookupGetter__"; "__lookupSetter__"; "isPrototypeOf";
    "propertyIsEnumerable"; "toString"; "valueOf"; "__proto__";
    "toLocaleString" ].

Definition inherited (key : string) : bool :=
  bool_decide (key ∈ Object_prototype_keys).

(** The reducer of [categoryStats]: [stats] holds the object's own
    properties.  [stats[q.category]] is falsy exactly when the key is
    neither an own property nor inherited; only then is a fresh entry
    created.  For an inherited key the two updates land on the inherited
    object and [stats] gets no own property. *)
Definition add_category (stats : gmap string CategoryStat) (q : Question)
  : gmap string CategoryStat :=
  let stats1 :=
    match stats !! category q with
    | Some _ => stats
    | None => if inherited (category q) then stats
              else <[category q := mkStat 0 0]> stats
    end in
  match stats1 !! category q with
  | Some st =>
      <[category q := mkStat (stat_questions st + 1) (stat_points st + points q)]> stats1
  | None => stats1
  end.

Definition categoryStats (qs : list Question) (questionsAnswered : Z)
  : gmap string CategoryStat :=
  fold_left add_category
    (filter_indexed (fun _ i => i <? questionsAnswered) qs) ∅.

Definition totalPossiblePoints (qs : list Question) : Z :=
  fold_left (fun total q => total + points q) qs 0.

Definition average_time (totalTime questionsAnswered : Z) : Average :=
  if 0 <? questionsAnswered
  then AverageFixed (JS.div totalTime questionsAnswered)
  else AverageZero.

Definition final_feedback (score totalPossible : Z) : Feedback :=
  let percentage := percentage_of score totalPossible in
  if JS.ge percentage 80 then Outstanding
  else if JS.ge percentage 60 then GreatJob
  else if JS.ge percentage 40 then GoodEffort
  else KeepLearning.

(** Everything [endGame] prints, as one record. *)
Definition report (gs : GameState) : Report :=
  let totalQuestions := Z.of_nat (length (questions gs)) in
  let questionsAnswered := currentQuestionIndex gs in
  let totalPossible := totalPossiblePoints (questions gs) in
  {| totalQuestions := totalQuestions;
     questionsAnswered := questionsAnswered;
     totalScore := score gs;
     timeTaken := totalTime gs;
     averageTime := average_time (totalTime gs) questionsAnswered;
     grade := calculateGrade (score gs) totalPossible;
     breakdown := categoryStats (questions gs) questionsAnswered;
     feedback := final_feedback (score gs) totalPossible |}.

(* ===================================================================== *)
(** ** The world: global state, console, readline and timers *)
(* ===================================================================== *)

(** Lines written to the terminal, by kind.  Prompts and decoration are
    not recorded. *)
Inductive message :=
| Cleared
| Welcome (timePerQuestion : Z)
| LoadFailed
| QuizSummary (qs : list Question)
| MainMenu
| GameRules
| InvalidOption
| Goodbye
| GameStarting
| QuestionShown (q : Question) (index total : Z) (timeRemaining : option Z)
| TimeRemaining (timeLeft : Z)
| TimesUp (q : Question)
| BlankLine
| QuestionSkipped
| InvalidAnswer
| CorrectWithBonus (pointsEarned : Z)
| Correct (p : Z)
| Incorrect (correctIndex : Z) (correctOption : option string)
| GameOver (r : Report)
| ErrorOccurred (e : JS.error)
| ThanksForPlaying
| QuizSummaryBroken.

(** The rest of an [async] function (or the plain callback of [endGame])
    waiting on [rl.question].  [user_answer] is the tail of [nextQuestion]
    after its [await]; it closes over [currentQuestion] and [startTime],
    and [awaited] records whether this call of [nextQuestion] is the one
    [startGame] awaits (inside the [try] of [main]) or one started from a
    timer callback. *)
Inductive continuation :=
| menu_choice
| use_timer
| user_answer (currentQuestion : Question) (startTime : Z) (awaited : bool)
| play_again.

(** Timer callbacks.  [tick] is the arrow function of [startTimer]
    together with the callback [nextQuestion] passes to it: it closes over
    [timeLeft], over the [answered] flag of that call of [nextQuestion]
    and over its [currentQuestion].  [advance] is the [setTimeout] arrow of
    the timeout branch, [next] is [() => nextQuestion()]. *)
Inductive callback :=
| tick (timeLeft : Z) (answered : bool) (currentQuestion : Question)
| advance
| next.

Record timer := mkTimer {
  handle : nat;
  due : Z;                 (* when it fires next, on [clock] *)
  period : option Z;       (* [Some d] for setInterval, [None] for setTimeout *)
  fn : callback
}.

Inductive status :=
| Running
| Closed                   (* rl.close() was called *)
| Crashed (e : JS.error)   (* unhandled promise rejection *)
| Exited.                  (* process.exit(0) *)

Record World := mkWorld {
  gameState : GameState;
  console : list message;          (* oldest first *)
  clock : Z;                       (* Date.now(), in milliseconds *)
  questionCallback : option continuation;
  timers : list timer;
  fresh : nat;                     (* next timer handle *)
  reading : bool;                  (* fs.readFile is pending *)
  state : status
}.

Definition with_gameState (f : GameState -> GameState) (w : World) : World :=
  mkWorld (f (gameState w)) (console w) (clock w) (questionCallback w)
          (timers w) (fresh w) (reading w) (state w).
Definition with_console (f : list message -> list message) (w : World) : World :=
  mkWorld (gameState w) (f (console w)) (clock w) (questionCallback w)
          (timers w) (fresh w) (reading w) (state w).
Definition with_clock (t : Z) (w : World) : World :=
  mkWorld (gameState w) (console w) t (questionCallback w)
          (timers w) (fresh w) (reading w) (state w).
Definition with_questionCallback (k : option continuation) (w : World) : World :=
  mkWorld (gameState w) (console w) (clock w) k
          (timers w) (fresh w) (reading w) (state w).
Definition with_timers (f : list timer -> list timer) (w : World) : World :=
  mkWorld (gameState w) (console w) (clock w) (questionCallback w)
          (f (timers w)) (fresh w) (reading w) (state w).
Definition with_fresh (n : nat) (w : World) : World :=
  mkWorld (gameState w) (console w) (clock w) (questionCallback w)
          (timers w) n (reading w) (state w).
Definition with_reading (b : bool) (w : World) : World :=
  mkWorld (gameState w) (console w) (clock w) (questionCallback w)
          (timers w) (fresh w) b (state w).
Definition with_state (s : status) (w : World) : World :=
  mkWorld (gameState w) (console w) (clock w) (questionCallback w)
          (timers w) (fresh w) (reading w) s.

Definition set_currentQuestionIndex (i : Z) (g : GameState) : GameState :=
  mkGameState i (score g) (totalTime g) (gameActive g) (questions g)
              (timePerQuestion g) (timerId g).
Definition set_score (s : Z) (g : GameState) : GameState :=
  mkGameState (currentQuestionIndex g) s (totalTime g) (gameActive g)
              (questions g) (timePerQuestion g) (timerId g).
Definition set_totalTime (t : Z) (g : GameState) : GameState :=
  mkGameState (currentQuestionIndex g) (score g) t (gameActive g)
              (questions g) (timePerQuestion g) (timerId g).
Definition set_gameActive (b : bool) (g : GameState) : GameState :=
  mkGameState (currentQuestionIndex g) (score g) (totalTime g) b
              (questions g) (timePerQuestion g) (timerId g).
Definition set_questions (qs : list Question) (g : GameState) : GameState :=
  mkGameState (currentQuestionIndex g) (score g) (totalTime g) (gameActive g)
              qs (timePerQuestion g) (timerId g).
Definition set_timePerQuestion (t : Z) (g : GameState) : GameState :=
  mkGameState (currentQuestionIndex g) (score g) (totalTime g) (gameActive g)
              (questions g) t (timerId g).
Definition set_timerId (h : option nat) (g : GameState) : GameState :=
  mkGameState (currentQuestionIndex g) (score g) (totalTime g) (gameActive g)
              (questions g) (timePerQuestion g) h.

(** *** Function bodies: state plus exceptions *)

Inductive outcome (A : Type) :=
| Return (a : A) (w : World)
| Throw (e : JS.error) (w : World).
Arguments Return {A} a w.
Arguments Throw {A} e w.

Definition M (A : Type) : Type := World -> outcome A.

#[export] Instance M_ret : MRet M := fun A a w => Return a w.
#[export] Instance M_bind : MBind M := fun A B f m w =>
  match m w with
  | Return a w' => f a w'
  | Throw e w' => Throw e w'
  end.

Definition throw {A : Type} (e : JS.error) : M A := fun w => Throw e w.
Definition get : M GameState := fun w => Return (gameState w) w.
Definition modify (f : GameState -> GameState) : M unit :=
  fun w => Return tt (with_gameState f w).
Definition update (f : World -> World) : M unit := fun w => Return tt (f w).
Definition log (m : message) : M unit :=
  update (with_console (fun c => c ++ [m])).
Definition Date_now : M Z := fun w => Return (clock w) w.

(** Reading a variable that no scope declares. *)
Definition undeclared {A : Type} (name : string) : M A := throw JS.ReferenceError.

(** The world a body leaves behind. *)
Definition world_of {A : Type} (o : outcome A) : World :=
  match o with Return _ w => w | Throw _ w => w end.

(** *** readline and timers *)

(** [rl.question(prompt, cb)]: readline keeps one question callback; while
    one is pending a further call only re-displays the prompt and its
    callback is never invoked. *)
Definition rl_question (k : continuation) : M unit :=
  update (fun w =>
    match questionCallback w with
    | Some _ => w
    | None => with_questionCallback (Some k) w
    end).

Definition rl_close : M unit := update (with_state Closed).

Definition add_timer (period : option Z) (f : callback) (delay : Z) : M nat :=
  fun w =>
    let h := fresh w in
    Return h (with_fresh (S h)
               (with_timers (fun ts => ts ++ [mkTimer h (clock w + delay) period f]) w)).

Definition setInterval (f : callback) (delay : Z) : M nat := add_timer (Some delay) f delay.
Definition setTimeout (f : callback) (delay : Z) : M nat := add_timer None f delay.

(** [clearInterval(id)]; [clearInterval(null)] does nothing. *)
Definition clearInterval (id : option nat) : M unit :=
  match id with
  | Some h => update (with_timers (filter (fun t => handle t ≠ h)))
  | None => mret tt
  end.

(* ===================================================================== *)
(** ** The script, function by function *)
(* ===================================================================== *)

(** [displayQuestion(questionObj, index)] *)
Definition displayQuestion (questionObj : Question) (index : Z) : M unit :=
  gs ← get;
  log (QuestionShown questionObj index (Z.of_nat (length (questions gs)))
         (if 0 <? timePerQuestion gs then Some (timePerQuestion gs) else None)).

(** [startTimer(callback)], where [callback] is the arrow function of
    [nextQuestion] for [currentQuestion] with its fresh [answered] flag. *)
Definition startTimer (currentQuestion : Question) : M (option nat) :=
  gs ← get;
  if timePerQuestion gs <=? 0 then mret None
  else
    let timeLeft := timePerQuestion gs in
    h ← setInterval (tick timeLeft false currentQuestion) 1000;
    mret (Some h).

(** [askQuestion(promptText)] up to its promise; the answer is trimmed
    when the promise resolves (see [resume]). *)
Definition askQuestion (k : continuation) : M unit := rl_question k.

(** [processAnswer(questionObj, userAnswer, answerTime)] *)
Definition processAnswer (questionObj : Question) (userAnswer : string)
    (answerTime : Z) : M bool :=
  let correctIndex := answer questionObj in
  let invalid : M bool := log InvalidAnswer;; mret false in
  match JS.parseInt userAnswer with
  | None => invalid                       (* isNaN(userIndex) *)
  | Some n =>
      let userIndex := n - 1 in
      if (userIndex <? 0) || (Z.of_nat (length (options questionObj)) <=? userIndex)
      then invalid
      else if userIndex =? correctIndex then
        gs ← get;
        let pointsEarned := points questionObj in
        pointsEarned ←
          (if (0 <? timePerQuestion gs) && JS.lt_half answerTime (timePerQuestion gs)
           then
             let pointsEarned := pointsEarned + JS.floor_half (points questionObj) in
             log (CorrectWithBonus pointsEarned);; mret pointsEarned
           else
             pointsObj ← undeclared "pointsObj";
             log (Correct (points pointsObj));; mret pointsEarned);
        modify (fun g => set_score (score g + pointsEarned) g);;
        mret true
      else
        log (Incorrect (correctIndex + 1)
               (element_at (options questionObj) correctIndex));;
        mret false
  end.

(** The tail of [endGame]'s synchronous body is [rl.question]; its
    callback is [play_again]. *)
Definition endGame : M unit :=
  modify (set_gameActive false);;
  gs ← get;
  (match timerId gs with
   | Some h => clearInterval (Some h)
   | None => mret tt
   end);;
  gs ← get;
  log (GameOver (report gs));;
  rl_question play_again.

(** [nextQuestion()] up to its [await]. *)
Definition nextQuestion (awaited : bool) : M unit :=
  gs ← get;
  if negb (gameActive gs)
     || (Z.of_nat (length (questions gs)) <=? currentQuestionIndex gs)
  then endGame
  else
    match element_at (questions gs) (currentQuestionIndex gs) with
    | None => throw JS.TypeError   (* displayQuestion reads undefined.category *)
    | Some currentQuestion =>
        displayQuestion currentQuestion (currentQuestionIndex gs);;
        (if 0 <? timePerQuestion gs then
           clearInterval (timerId gs);;
           h ← startTimer currentQuestion;
           modify (set_timerId h)
         else mret tt);;
        startTime ← Date_now;
        askQuestion (user_answer currentQuestion startTime awaited)
    end.

(** [nextQuestion()] from its [await] on, with the trimmed answer. *)
Definition nextQuestion_resume (currentQuestion : Question) (startTime : Z)
    (userAnswer : string) : M unit :=
  now ← Date_now;
  let answerTime := JS.floor_seconds (now - startTime) in
  gs ← get;
  (if 0 <? timePerQuestion gs then
     clearInterval (timerId gs);; log BlankLine
   else mret tt);;
  if String.eqb (JS.toLowerCase userAnswer) "quit" then endGame
  else if String.eqb (JS.toLowerCase userAnswer) "skip" then
    log QuestionSkipped;;
    modify (fun g => set_currentQuestionIndex (currentQuestionIndex g + 1) g);;
    setTimeout next 1500;;
    mret tt
  else
    isCorrect ← processAnswer currentQuestion userAnswer answerTime;
    modify (fun g => set_currentQuestionIndex (currentQuestionIndex g + 1) g);;
    modify (fun g => set_totalTime (totalTime g + answerTime) g);;
    setTimeout next 2000;;
    mret tt.

(** [startGame()] up to its [await]. *)
Definition startGame : M unit :=
  modify (set_gameActive true);;
  modify (set_currentQuestionIndex 0);;
  modify (set_score 0);;
  modify (set_totalTime 0);;
  log GameStarting;;
  askQuestion use_timer.

(** [startGame()] from its [await] on. *)
Definition startGame_resume (useTimer : string) : M unit :=
  (if String.eqb (JS.toLowerCase useTimer) "no"
   then modify (set_timePerQuestion 0)
   else mret tt);;
  nextQuestion true.

Definition displayRules : M unit := log GameRules.

(** [showMenu()] up to its [await]. *)
Definition showMenu : M unit := log MainMenu;; askQuestion menu_choice.

(** [showMenu()] from its [await] on. *)
Definition showMenu_resume (choice : string) : M unit :=
  if String.eqb choice "1" then startGame
  else if String.eqb choice "2" then displayRules;; showMenu
  else if String.eqb choice "3" then log Goodbye;; rl_close
  else log InvalidOption;; showMenu.

Definition displayWelcome : M unit :=
  log Cleared;;
  gs ← get;
  log (Welcome (timePerQuestion gs)).

(** [loadQuestions()] once [fs.readFile] and [JSON.parse] are done:
    [Some qs] is a file that parsed to an array of question records of the
    shape the script assumes, [None] any failure of the two.  A file that
    parsed to anything else is stored as it is and has no value in
    [list Question]; see [main_resume_misshapen]. *)
Definition loadQuestions_resume (file : option (list Question)) : M bool :=
  match file with
  | Some qs => modify (set_questions qs);; mret true
  | None =>
      log LoadFailed;;
      modify (set_questions fallback_questions);;
      mret false
  end.

(** The [try]/[catch] of [main]: whatever the awaited chain throws is
    reported and the interface is closed. *)
Definition try_main (body : M unit) : M unit :=
  fun w =>
    match body w with
    | Return a w' => Return a w'
    | Throw e w' => (log (ErrorOccurred e);; rl_close) w'
    end.

(** A promise nobody awaits or catches: a rejection is an unhandled
    rejection, which ends the process. *)
Definition detached (body : M unit) : M unit :=
  fun w =>
    match body w with
    | Return a w' => Return a w'
    | Throw e w' => Return tt (with_state (Crashed e) w')
    end.

(** [main()] up to [await loadQuestions()]. *)
Definition main : M unit :=
  try_main (displayWelcome;; update (with_reading true)).

(** [main()] once the file has been read. *)
Definition main_resume (file : option (list Question)) : M unit :=
  try_main (
    loadQuestions_resume file;;
    gs ← get;
    log (QuizSummary (questions gs));;
    showMenu).

(** [main()] once the file has been read, when [JSON.parse] returned a
    value that is not an array of question records and on which the quiz
    summary throws: something that is not an array ([{}], a number,
    [null]), or an array with an element that is [null] or whose
    [question] is not a string ([[{}]]).  [loadQuestions] has stored the
    value and returned true; the summary prints its heading and the lines
    of the elements before the offending one, then [forEach], [q.category]
    or [q.question.substring] throws a TypeError and the [catch] of [main]
    reports it and closes the interface.  The value stored is no list of
    questions: the field [questions] cannot hold it and is left as it was,
    and nothing reads it again, since the model stops at the close.
    (Records that get through the summary but lack or mistype another
    field are beyond the typed [Question].) *)
Definition main_resume_misshapen : M unit :=
  try_main (log QuizSummaryBroken;; throw JS.TypeError).

(** The callback of the "Play again?" question; it gets the raw line. *)
Definition play_again_callback (answer : string) : M unit :=
  if String.eqb (JS.toLowerCase answer) "yes"
  then log Cleared;; main
  else log ThanksForPlaying;; rl_close.

(** The SIGINT handler. *)
Definition on_SIGINT : M unit :=
  log ThanksForPlaying;;
  gs ← get;
  (match timerId gs with
   | Some h => clearInterval (Some h)
   | None => mret tt
   end);;
  rl_close;;
  update (with_state Exited).

(* ===================================================================== *)
(** ** The event loop *)
(* ===================================================================== *)

(** A pending continuation is resumed with the line the user typed.
    [askQuestion] trims it; [endGame]'s own callback does not.  The
    [async] chain [main] > [showMenu] > [startGame] > [nextQuestion] is
    awaited link by link, so what its tails throw reaches the [catch] of
    [main]; a [nextQuestion] started from a timer is not awaited. *)
Definition resume (k : continuation) (line : string) : M unit :=
  match k with
  | menu_choice => try_main (showMenu_resume (JS.trim line))
  | use_timer => try_main (startGame_resume (JS.trim line))
  | user_answer currentQuestion startTime awaited =>
      (if awaited then try_main else detached)
        (nextQuestion_resume currentQuestion startTime (JS.trim line))
  | play_again => play_again_callback line
  end.

(** readline's line handler: the pending callback, if any, is taken out
    before it is called; a line nobody asked for is dropped. *)
Definition on_line (line : string) : M unit :=
  fun w =>
    match questionCallback w with
    | Some k => resume k line (with_questionCallback None w)
    | None => Return tt w
    end.

(** One run of the [setInterval] arrow of [startTimer]; returns the
    closure with its updated [timeLeft] and [answered]. *)
Definition run_tick (timeLeft : Z) (answered : bool) (currentQuestion : Question)
  : M callback :=
  let timeLeft := timeLeft - 1 in
  log (TimeRemaining timeLeft);;
  answered ←
    (if timeLeft <=? 0 then
       (* callback('timeout') *)
       if negb answered then
         log (TimesUp currentQuestion);;
         setTimeout advance 2000;;
         mret true
       else mret answered
     else mret answered);
  mret (tick timeLeft answered currentQuestion).

Definition set_fn (h : nat) (f : callback) (t : timer) : timer :=
  if Nat.eqb (handle t) h then mkTimer (handle t) (due t) (period t) f else t.

Definition run_callback (t : timer) : M unit :=
  match fn t with
  | tick timeLeft answered currentQuestion =>
      f ← run_tick timeLeft answered currentQuestion;
      update (with_timers (map (set_fn (handle t) f)))
  | advance =>
      modify (fun g => set_currentQuestionIndex (currentQuestionIndex g + 1) g);;
      detached (nextQuestion false)
  | next => detached (nextQuestion false)
  end.

Definition reschedule (h : nat) (d : Z) (t : timer) : timer :=
  if Nat.eqb (handle t) h then mkTimer (handle t) (due t + d) (period t) (fn t) else t.

(** The timer [t] fires: the clock moves to its due time, a timeout
    leaves the queue and an interval is re-armed, then its callback runs. *)
Definition fire (t : timer) : M unit :=
  update (fun w => with_clock (Z.max (clock w) (due t)) w);;
  (match period t with
   | Some d => update (with_timers (map (reschedule (handle t) d)))
   | None => update (with_timers (filter (fun t' => handle t' ≠ handle t)))
   end);;
  run_callback t.

(** The timer that fires next: the least due time, the older one first
    among equals. *)
Definition earliest (ts : list timer) : option timer :=
  fold_left (fun best t =>
               match best with
               | None => Some t
               | Some b => if due t <? due b then Some t else Some b
               end) ts None.

Inductive event :=
| FileRead (file : option (list Question))
| Line (delay : Z) (text : string)
| Fire
| SIGINT
| FileMisshapen.

(** An exception that leaves a top-level callback ends the process. *)
Definition settle (o : outcome unit) : World :=
  match o with
  | Return _ w => w
  | Throw e w => with_state (Crashed e) w
  end.

(** One turn of the event loop.  A line typed [delay] milliseconds from
    now is only possible if no timer is due before it; the model stops
    once the interface is closed or the process has ended. *)
Definition step (e : event) (w : World) : option World :=
  match state w with
  | Running =>
      match e with
      | FileRead file =>
          if reading w
          then Some (settle (main_resume file (with_reading false w)))
          else None
      | Line delay text =>
          if (0 <=? delay) && forallb (fun t => clock w + delay <=? due t) (timers w)
          then Some (settle (on_line text (with_clock (clock w + delay) w)))
          else None
      | Fire =>
          match earliest (timers w) with
          | Some t => Some (settle (fire t w))
          | None => None
          end
      | SIGINT => Some (settle (on_SIGINT w))
      | FileMisshapen =>
          if reading w
          then Some (settle (main_resume_misshapen (with_reading false w)))
          else None
      end
  | _ => None
  end.

Fixpoint run (es : list event) (w : World) : option World :=
  match es with
  | [] => Some w
  | e :: es' =>
      match step e w with
      | Some w' => run es' w'
      | None => None
      end
  end.

(** The world right after the script is loaded: [main()] has run up to
    its first [await]. *)
Definition boot : World :=
  settle (main (mkWorld initial_gameState [] 0 None [] 0%nat false Running)).

(* ===================================================================== *)
(** ** Vocabulary of the statements *)
(* ===================================================================== *)

(** The gameState fields a question's resolution may touch. *)
Definition index_of (w : World) : Z := currentQuestionIndex (gameState w).
Definition score_of (w : World) : Z := score (gameState w).
Definition time_of (w : World) : Z := totalTime (gameState w).

(** A line typed [delay] ms from now is possible in [w]. *)
Definition line_enabled (delay : Z) (w : World) : Prop :=
  0 <= delay /\ Forall (fun t => clock w + delay <= due t) (timers w).

(** The indices of the questions put on screen so far, oldest first. *)
Fixpoint questions_shown (c : list message) : list Z :=
  match c with
  | QuestionShown _ index _ _ :: c' => index :: questions_shown c'
  | _ :: c' => questions_shown c'
  | [] => []
  end.

(** Per-category figures as the report describes them: how many of the
    questions [qs] are in category [c], and the sum of their points. *)
Definition category_count (c : string) (qs : list Question) : Z :=
  Z.of_nat (length (filter (fun q => category q = c) qs)).

Definition category_points (c : string) (qs : list Question) : Z :=
  foldr (fun q total => points q + total) 0 (filter (fun q => category q = c) qs).

(** The outcome of [processAnswer] on an input it rejects. *)
Definition rejected (w : World) : outcome bool :=
  Return false (with_console (fun c => c ++ [InvalidAnswer]) w).

(** [userAnswer] names no option of [q]: it parses to no integer, or to
    one outside [1 .. options.length]. *)
Definition names_no_option (q : Question) (userAnswer : string) : Prop :=
  match JS.parseInt userAnswer with
  | Some n => n < 1 \/ Z.of_nat (length (options q)) < n
  | None => True
  end.

(** A game in progress on [qs] with the given time per question: the
    state [startGame] leaves, before the first question is asked. *)
Definition playing (qs : list Question) (timePerQuestion : Z) : World :=
  mkWorld (mkGameState 0 0 0 true qs timePerQuestion None)
          [] 0 None [] 0%nat false Running.

(** The two fallback questions. *)
Definition two_plus_two : Question :=
  mkQuestion "What is 2 + 2?" ["3"; "4"; "5"; "6"] 1 "Math" 5.
Definition sky_color : Question :=
  mkQuestion "What color is the sky?" ["Red"; "Green"; "Blue"; "Yellow"] 2 "Science" 5.

(** Every character of [s] is a radix-[R] digit. *)
Fixpoint only_digits (R : Z) (s : string) : bool :=
  match s with
  | String c s' =>
      match JS.radix_digit R c with
      | Some _ => only_digits R s'
      | None => false
      end
  | EmptyString => true
  end.

(** The world in which the first fallback question is on screen, the
    timer being off. *)
Definition first_question_untimed : World :=
  world_of (nextQuestion true (playing fallback_questions 0)).

(** [w] once [clearInterval(gameState.timerId)] has run. *)
Definition timer_cleared (w : World) : World :=
  match timerId (gameState w) with
  | Some h => with_timers (filter (fun t => handle t ≠ h)) w
  | None => w
  end.

(** [w] once [endGame]'s synchronous body has run. *)
Definition ended (w : World) : World :=
  let w1 := with_gameState (set_gameActive false) w in
  let w2 := with_console
              (fun c => c ++ [GameOver (report (gameState w1))])
              (timer_cleared w1) in
  match questionCallback w with
  | Some _ => w2
  | None => with_questionCallback (Some play_again) w2
  end.

(** [w] once the tail of [nextQuestion] has stopped the countdown. *)
Definition countdown_stopped (w : World) : World :=
  if 0 <? timePerQuestion (gameState w)
  then with_console (fun c => c ++ [BlankLine]) (timer_cleared w)
  else w.

(** The world a run from [boot] ends in ([boot] itself if the run is
    not possible). *)
Definition after (es : list event) : World := default boot (run es boot).

(** A game state that has just been created for an empty question list. *)
Definition no_questions : GameState := mkGameState 0 0 0 false [] 30 None.

(** What resolving questions moves: index, score and total time. *)
Definition progress (w : World) : Z * Z * Z :=
  (index_of w, score_of w, time_of w).

(** The lines that report how a question was resolved. *)
Definition is_resolution (m : message) : bool :=
  match m with
  | TimesUp _ | QuestionSkipped | InvalidAnswer | CorrectWithBonus _
  | Correct _ | Incorrect _ _ => true
  | _ => false
  end.

(** How far the game has got: the index, the questions shown so far and
    the resolutions printed so far. *)
Definition resolved (w : World) : Z * list Z * list message :=
  (index_of w, questions_shown (console w), filter is_resolution (console w)).

(** The report at the end of the console, if that is what it ends with. *)
Definition last_report_of (w : World) : option Report :=
  match last (console w) with
  | Some (GameOver r) => Some r
  | _ => None
  end.

(** What one question does to the entry of a category that is not an
    inherited property name. *)
Definition bump (o : option CategoryStat) (n p : Z) : option CategoryStat :=
  if n =? 0 then o
  else match o with
       | Some st => Some (mkStat (stat_questions st + n) (stat_points st + p))
       | None => Some (mkStat n p)
       end.

(** A run of [n] timer firings. *)
Definition fires (n : nat) : list event := repeat Fire n.

(** Opening moves: the question file has been read (or could not be),
    the player picks "Start New Game" and answers the timer question. *)
Definition opening (file : option (list Question)) (useTimer : string)
  : list event :=
  [FileRead file; Line 0 "1"; Line 0 useTimer].

(* ===================================================================== *)
(** ** Vocabulary of the further properties *)
(* ===================================================================== *)

(** [w] once [nextQuestion] has put [currentQuestion] on screen: the
    question is printed; with the timer on, the countdown held by
    [timerId] is cleared and a new one is started for this question; the
    tail of [nextQuestion] is handed to readline. *)
Definition asked (awaited : bool) (currentQuestion : Question) (w : World)
  : World :=
  let gs := gameState w in
  let w1 :=
    with_console
      (fun c => c ++ [QuestionShown currentQuestion (currentQuestionIndex gs)
                        (Z.of_nat (length (questions gs)))
                        (if 0 <? timePerQuestion gs
                         then Some (timePerQuestion gs) else None)]) w in
  let w2 :=
    if 0 <? timePerQuestion gs then
      with_gameState (set_timerId (Some (fresh w)))
        (with_fresh (S (fresh w))
           (with_timers
              (fun ts => ts ++ [mkTimer (fresh w) (clock w + 1000) (Some 1000)
                                  (tick (timePerQuestion gs) false
                                     currentQuestion)])
              (timer_cleared w1)))
    else w1 in
  match questionCallback w with
  | Some _ => w2
  | None =>
      with_questionCallback
        (Some (user_answer currentQuestion (clock w) awaited)) w2
  end.

(** A question the script can handle without surprises: four options,
    the right one among them, a positive number of points. *)
Definition well_formed (q : Question) : Prop :=
  length (options q) = 4%nat
  /\ 0 <= answer q < Z.of_nat (length (options q))
  /\ 0 < points q.

(** The grades in order, 'F' lowest. *)
Definition grade_rank (g : Grade) : Z :=
  match g with
  | GradeF => 0 | GradeD => 1 | GradeC => 2 | GradeB => 3
  | GradeA => 4 | GradeAPlus => 5
  end.

(** A body keeps [P]: whether it returns or throws, the world it leaves
    satisfies [P] if the world it started in did. *)
Definition keeps {A : Type} (P : World -> Prop) (m : M A) : Prop :=
  forall w, P w -> P (world_of (m w)).

(** The handles of the countdowns (repeating timers) in a queue. *)
Definition countdowns (ts : list timer) : list nat :=
  omap (fun t => match period t with
                 | Some _ => Some (handle t)
                 | None => None
                 end) ts.

(** At most one countdown is running, and it is the one [timerId] holds. *)
Definition one_countdown (w : World) : Prop :=
  countdowns (timers w) = []
  \/ exists h, countdowns (timers w) = [h]
               /\ timerId (gameState w) = Some h.

(** U+00A0, the no-break space, and U+212A, the Kelvin sign, as the
    script's strings hold them. *)
Definition nbsp : string := String "194" (String "160" "").
Definition kelvin_sign : string := String "226" (String "132" (String "170" "")).

(** The reports printed so far, oldest first, and what the game has come
    to: the index, whether the game is active, and of each report the
    number of questions answered and the entries of the two categories of
    the built-in questions. *)
Definition reports (w : World) : list Report :=
  omap (fun m => match m with GameOver r => Some r | _ => None end) (console w).

Definition reported (w : World)
  : Z * bool * list (Z * option CategoryStat * option CategoryStat) :=
  (index_of w, gameActive (gameState w),
   map (fun r => (questionsAnswered r, breakdown r !! "Math",
                  breakdown r !! "Science")) (reports w)).

(* ===================================================================== *)
(** ** Proof tools *)
(* ===================================================================== *)

(** Unfold the monad and the state primitives. *)
Ltac unfold_M :=
  unfold mbind, M_bind, mret, M_ret, log, update, modify, get, throw,
    undeclared, Date_now in *.

(** Unfold readline, the timers and the two ways of running a promise. *)
Ltac unfold_io :=
  unfold clearInterval, setTimeout, setInterval, add_timer, rl_question,
    rl_close, try_main, detached, settle;
  unfold_M; simpl.

(* ===================================================================== *)
(** * Properties *)
(* ===================================================================== *)

(** ** Numbers *)

Lemma lt_half_Q (a b : Z) :
  JS.lt_half a b = true <-> (inject_Z a < inject_Z b / 2)%Q.
Proof.
  unfold JS.lt_half. rewrite negb_true_iff.
  split.
  - intros H. apply Qnot_le_lt. intros Hle.
    apply Qle_bool_iff in Hle. congruence.
  - intros H. destruct (Qle_bool (inject_Z b / 2) (inject_Z a)) eqn:E; [|done].
    apply Qle_bool_iff in E. exfalso. eapply Qlt_not_le; eauto.
Qed.

Lemma lt_half_Z (a b : Z) : JS.lt_half a b = true <-> 2 * a < b.
Proof.
  rewrite lt_half_Q. unfold Qlt, Qdiv, Qmult, Qinv, inject_Z. simpl. lia.
Qed.

Lemma floor_half_div (p : Z) : JS.floor_half p = p / 2.
Proof.
  unfold JS.floor_half, Qfloor, Qmult, inject_Z. simpl.
  f_equal. lia.
Qed.

Lemma floor_seconds_div (ms : Z) : JS.floor_seconds ms = ms / 1000.
Proof.
  unfold JS.floor_seconds, Qfloor, Qdiv, Qmult, Qinv, inject_Z. simpl.
  f_equal. lia.
Qed.

(** ** [processAnswer] *)

(** The three ways out of [processAnswer] for an input that names the
    option [n]. *)
Lemma processAnswer_option (q : Question) (answerTime : Z) (w : World)
    (s : string) (n : Z) :
  JS.parseInt s = Some n -> 1 <= n <= Z.of_nat (length (options q)) ->
  processAnswer q s answerTime w =
    if n - 1 =? answer q then
      if (0 <? timePerQuestion (gameState w))
         && JS.lt_half answerTime (timePerQuestion (gameState w))
      then
        let pointsEarned := points q + JS.floor_half (points q) in
        Return true
          (with_gameState (fun g => set_score (score g + pointsEarned) g)
             (with_console (fun c => c ++ [CorrectWithBonus pointsEarned]) w))
      else Throw JS.ReferenceError w
    else
      Return false
        (with_console
           (fun c => c ++ [Incorrect (answer q + 1)
                                     (element_at (options q) (answer q))]) w).
Proof.
  intros Hp Hn. unfold processAnswer. rewrite Hp.
  replace ((n - 1 <? 0) || (Z.of_nat (length (options q)) <=? n - 1)) with false
    by (symmetry; apply orb_false_iff; lia).
  destruct (n - 1 =? answer q); [|reflexivity].
  unfold_M. simpl.
  destruct ((0 <? timePerQuestion (gameState w))
            && JS.lt_half answerTime (timePerQuestion (gameState w)));
    reflexivity.
Qed.

Lemma processAnswer_rejects (q : Question) (answerTime : Z) (w : World)
    (s : string) :
  names_no_option q s -> processAnswer q s answerTime w = rejected w.
Proof.
  unfold names_no_option, processAnswer. intros H.
  destruct (JS.parseInt s) as [n|]; [|reflexivity].
  replace ((n - 1 <? 0) || (Z.of_nat (length (options q)) <=? n - 1)) with true
    by (symmetry; apply orb_true_iff; lia).
  reflexivity.
Qed.

(** Consequence for correct answers that earn no bonus: the body throws
    before the score is touched. *)
Lemma processAnswer_no_bonus_throws (q : Question) (s : string)
    (answerTime n : Z) (w : World) :
  JS.parseInt s = Some n -> 1 <= n <= Z.of_nat (length (options q)) ->
  n - 1 = answer q ->
  timePerQuestion (gameState w) <= 0
  \/ (inject_Z (timePerQuestion (gameState w)) / 2 <= inject_Z answerTime)%Q ->
  processAnswer q s answerTime w = Throw JS.ReferenceError w.
Proof.
  intros Hp Hn Hc Hno. rewrite (processAnswer_option q answerTime w s n Hp Hn).
  rewrite (proj2 (Z.eqb_eq _ _) Hc).
  replace ((0 <? timePerQuestion (gameState w))
           && JS.lt_half answerTime (timePerQuestion (gameState w))) with false;
    [reflexivity|].
  symmetry. apply andb_false_iff. destruct Hno as [H|H].
  - left. lia.
  - right. apply not_true_is_false. rewrite lt_half_Q.
    intros Hlt. eapply Qlt_not_le; eauto.
Qed.

Lemma snoc_neq {A : Type} (l : list A) (x : A) : l ++ [x] <> l.
Proof.
  intros H. apply (f_equal (@length A)) in H. rewrite length_app in H.
  simpl in H. lia.
Qed.

(** C1 (the code departs from it).  A correct answer that earns no bonus
    should award exactly [question.points]; in the script that branch reads
    the undeclared [pointsObj] and throws a ReferenceError before
    [gameState.score] is updated.  Shown on the first fallback question,
    answered "2": with the timer off, with the timer on after 20 of 30
    seconds, and in a whole session, which ends in the [catch] of [main]
    with score 0 and the index not advanced. *)
Theorem correct_answer_without_bonus_throws :
  processAnswer two_plus_two "2" 3 (playing fallback_questions 0)
    = Throw JS.ReferenceError (playing fallback_questions 0)
  /\ processAnswer two_plus_two "2" 20 (playing fallback_questions 30)
    = Throw JS.ReferenceError (playing fallback_questions 30)
  /\ (fun w => (state w, score_of w, index_of w))
       <$> run (opening None "no" ++ [Line 3000 "2"]) boot
     = Some (Closed, 0, 0).
Proof. repeat apply conj; vm_compute; reflexivity. Qed.

(** C2.  A correct answer given with the timer on and in less than half
    the time per question earns [points + floor(points * 0.5)], which is
    printed and added to the score; with the timer off the same answer
    never gets the bonus. *)
Theorem time_bonus_awarded (q : Question) (s : string) (answerTime n : Z)
    (w : World) :
  JS.parseInt s = Some n -> 1 <= n <= Z.of_nat (length (options q)) ->
  n - 1 = answer q ->
  (0 < timePerQuestion (gameState w) ->
   (inject_Z answerTime < inject_Z (timePerQuestion (gameState w)) / 2)%Q ->
   let pointsEarned := points q + Qfloor (inject_Z (points q) * (1 # 2)) in
   processAnswer q s answerTime w =
     Return true
       (with_gameState (fun g => set_score (score g + pointsEarned) g)
          (with_console (fun c => c ++ [CorrectWithBonus pointsEarned]) w)))
  /\ (timePerQuestion (gameState w) <= 0 ->
      let w' := world_of (processAnswer q s answerTime w) in
      score_of w' = score_of w
      /\ forall p, console w' <> console w ++ [CorrectWithBonus p]).
Proof.
  intros Hp Hn Hc. split.
  - intros Ht Hlt. rewrite (processAnswer_option q answerTime w s n Hp Hn).
    rewrite (proj2 (Z.eqb_eq _ _) Hc).
    apply lt_half_Q in Hlt. rewrite Hlt.
    rewrite (proj2 (Z.ltb_lt _ _) Ht). reflexivity.
  - intros Ht. rewrite (processAnswer_no_bonus_throws q s answerTime n w); auto.
    simpl. split; [reflexivity|]. intros p H. symmetry in H.
    exact (snoc_neq _ _ H).
Qed.

Lemma time_bonus_awarded_witness :
  processAnswer two_plus_two "2" 10 (playing fallback_questions 30) =
    Return true
      (with_gameState (fun g => set_score (score g + 7) g)
         (with_console (fun c => c ++ [CorrectWithBonus 7])
            (playing fallback_questions 30)))
  /\ score_of (world_of (processAnswer two_plus_two "2" 10
                           (playing fallback_questions 0))) = 0.
Proof.
  split.
  - destruct (time_bonus_awarded two_plus_two "2" 10 2
                (playing fallback_questions 30)) as [H _];
      [reflexivity | simpl; lia | reflexivity |].
    apply H; reflexivity.
  - destruct (time_bonus_awarded two_plus_two "2" 10 2
                (playing fallback_questions 0)) as [_ H];
      [reflexivity | simpl; lia | reflexivity |].
    apply H. simpl. lia.
Defined.

(** ** Prefix parsing *)

Lemma digits_prefix_suffix (R : Z) (ds rest : string) :
  only_digits R ds = true ->
  JS.digits_prefix R rest = [] ->
  JS.digits_prefix R (ds +:+ rest) = JS.digits_prefix R ds.
Proof.
  intros Hds Hrest. induction ds as [|c ds IH]; simpl in *.
  - exact Hrest.
  - destruct (JS.radix_digit R c); [|discriminate].
    f_equal. auto.
Qed.

Lemma parseInt_ignores_suffix (ds rest : string) :
  only_digits 10 ds = true -> ds <> "" -> ds <> "0" ->
  JS.digits_prefix 10 rest = [] ->
  JS.parseInt (ds +:+ rest) = JS.parseInt ds.
Proof.
  intros Hds Hne H0 Hrest.
  destruct ds as [|c ds']; [done|].
  pose proof (digits_prefix_suffix 10 (String c ds') rest Hds Hrest) as Hpre.
  simpl in Hds.
  destruct c as [[] [] [] [] [] [] [] []]; try discriminate Hds.
  all: unfold JS.parseInt.
  all: try (simpl; simpl in Hpre; rewrite Hpre; reflexivity).
  (* the digit 0: the next character decides about the 0x prefix *)
  destruct ds' as [|c' ds'']; [done|].
  simpl in Hds.
  destruct c' as [[] [] [] [] [] [] [] []]; try discriminate Hds.
  all: simpl; simpl in Hpre; rewrite Hpre; reflexivity.
Qed.

(** C10.  Whether an input is accepted depends only on what [parseInt]
    makes of its leading characters: an input whose prefix parses to [i]
    with [1 <= i <= options.length] is not rejected, whatever follows the
    number, and is judged as option [i], like any other input that parses
    to [i]: found incorrect when option [i] is not the right one, and
    taken down the path of a right answer when it is (the bonus inside the
    bonus window, the throw of the other branch outside it).  "3abc" is
    option 3. *)
Theorem integer_prefix_accepted (q : Question) (s : string)
    (answerTime i : Z) (w : World) :
  JS.parseInt s = Some i -> 1 <= i <= Z.of_nat (length (options q)) ->
  processAnswer q s answerTime w <> rejected w
  /\ (forall s', JS.parseInt s' = Some i ->
        processAnswer q s' answerTime w = processAnswer q s answerTime w)
  /\ (i - 1 <> answer q ->
      processAnswer q s answerTime w
      = Return false
          (with_console
             (fun c => c ++ [Incorrect (answer q + 1)
                                       (element_at (options q) (answer q))]) w))
  /\ (i - 1 = answer q ->
      0 < timePerQuestion (gameState w) ->
      2 * answerTime < timePerQuestion (gameState w) ->
      processAnswer q s answerTime w
      = Return true
          (with_gameState
             (fun g => set_score
                         (score g + (points q + JS.floor_half (points q))) g)
             (with_console
                (fun c => c ++ [CorrectWithBonus
                                  (points q + JS.floor_half (points q))]) w)))
  /\ (i - 1 = answer q ->
      timePerQuestion (gameState w) <= 0
      \/ timePerQuestion (gameState w) <= 2 * answerTime ->
      processAnswer q s answerTime w = Throw JS.ReferenceError w).
Proof.
  intros Hp Hi. repeat apply conj.
  - rewrite (processAnswer_option q answerTime w s i Hp Hi). unfold rejected.
    destruct (i - 1 =? answer q).
    + destruct (_ && _); [|discriminate].
      intros H. injection H as H. discriminate.
    + intros H. injection H as H. apply app_inv_head in H. discriminate.
  - intros s' Hp'.
    rewrite (processAnswer_option q answerTime w s i Hp Hi).
    rewrite (processAnswer_option q answerTime w s' i Hp' Hi). reflexivity.
  - intros Hwrong. rewrite (processAnswer_option q answerTime w s i Hp Hi).
    apply Z.eqb_neq in Hwrong. rewrite Hwrong. reflexivity.
  - intros Hright Htpq Hquick.
    rewrite (processAnswer_option q answerTime w s i Hp Hi).
    apply Z.eqb_eq in Hright. rewrite Hright.
    rewrite (proj2 (Z.ltb_lt _ _) Htpq), (proj2 (lt_half_Z _ _) Hquick).
    reflexivity.
  - intros Hright Hslow.
    apply (processAnswer_no_bonus_throws q s answerTime i w Hp Hi Hright).
    destruct Hslow as [H|H]; [left; exact H | right].
    apply Qnot_lt_le. intros Hlt. apply lt_half_Q in Hlt.
    apply lt_half_Z in Hlt. lia.
Qed.

Lemma integer_prefix_accepted_witness :
  JS.parseInt "3abc" = Some 3
  /\ processAnswer sky_color "3abc" 10 (playing fallback_questions 30)
     <> rejected (playing fallback_questions 30)
  /\ processAnswer sky_color "3" 10 (playing fallback_questions 30)
     = processAnswer sky_color "3abc" 10 (playing fallback_questions 30)
  /\ processAnswer sky_color "3abc" 10 (playing fallback_questions 30)
     = Return true
         (with_gameState (fun g => set_score (score g + (5 + JS.floor_half 5)) g)
            (with_console
               (fun c => c ++ [CorrectWithBonus (5 + JS.floor_half 5)])
               (playing fallback_questions 30)))
  /\ processAnswer two_plus_two "3abc" 10 (playing fallback_questions 30)
     = Return false
         (with_console (fun c => c ++ [Incorrect (1 + 1) (Some "4")])
            (playing fallback_questions 30))
  /\ processAnswer sky_color (nbsp +:+ "3rd") 20 (playing fallback_questions 30)
     = Throw JS.ReferenceError (playing fallback_questions 30).
Proof.
  split; [reflexivity|].
  destruct (integer_prefix_accepted sky_color "3abc" 10 3
              (playing fallback_questions 30)) as (H1 & H2 & _ & H4 & _);
    [reflexivity | simpl; lia |].
  split; [exact H1|]. split; [apply H2; reflexivity|].
  split; [apply H4; [reflexivity | simpl; lia | simpl; lia]|].
  split.
  - destruct (integer_prefix_accepted two_plus_two "3abc" 10 3
                (playing fallback_questions 30)) as (_ & _ & H3 & _);
      [reflexivity | simpl; lia |].
    apply H3. discriminate.
  - destruct (integer_prefix_accepted sky_color (nbsp +:+ "3rd") 20 3
                (playing fallback_questions 30)) as (_ & _ & _ & _ & H5);
      [reflexivity | simpl; lia |].
    apply H5; [reflexivity | right; simpl; lia].
Defined.

(** What the script strips before it looks at a line is any
    [StrWhiteSpaceChar], the no-break space among them, and the lower
    case of the Kelvin sign is "k". *)
Example white_space_beyond_ascii :
  JS.trim (nbsp +:+ "2" +:+ nbsp) = "2"
  /\ JS.parseInt (nbsp +:+ "2") = Some 2
  /\ JS.toLowerCase (JS.trim (nbsp +:+ "Quit")) = "quit"
  /\ JS.toLowerCase ("S" +:+ kelvin_sign +:+ "ip") = "skip".
Proof. repeat apply conj; reflexivity. Qed.

(** ** One line of input while a question is pending *)

Lemma line_enabled_forallb (delay : Z) (w : World) :
  line_enabled delay w ->
  (0 <=? delay) && forallb (fun t => clock w + delay <=? due t) (timers w) = true.
Proof.
  intros [Hd Hts]. apply andb_true_iff. split; [lia|].
  apply forallb_forall. intros t Ht.
  rewrite List.Forall_forall in Hts. specialize (Hts t Ht). lia.
Qed.

Lemma step_line (w : World) (k : continuation) (delay : Z) (line : string) :
  state w = Running -> questionCallback w = Some k -> line_enabled delay w ->
  step (Line delay line) w =
    Some (settle (resume k line
                    (with_questionCallback None
                       (with_clock (clock w + delay) w)))).
Proof.
  intros Hs Hk He. unfold step. rewrite Hs.
  rewrite (line_enabled_forallb _ _ He). unfold on_line. simpl.
  rewrite Hk. reflexivity.
Qed.

(** C7.  An input that is neither "quit" nor "skip" and names no option
    is rejected by [processAnswer] (it returns false after printing the
    invalid-answer line); the score is unchanged, the game stays active
    and the interface open, and the question index still moves on by 1. *)
Theorem invalid_answer_advances (w : World) (q : Question) (startTime : Z)
    (awaited : bool) (delay : Z) (line : string) :
  state w = Running ->
  questionCallback w = Some (user_answer q startTime awaited) ->
  line_enabled delay w ->
  JS.toLowerCase (JS.trim line) <> "quit" ->
  JS.toLowerCase (JS.trim line) <> "skip" ->
  names_no_option q (JS.trim line) ->
  (forall t w0, processAnswer q (JS.trim line) t w0 = rejected w0)
  /\ exists w', step (Line delay line) w = Some w'
       /\ last (console w') = Some InvalidAnswer
       /\ score_of w' = score_of w
       /\ index_of w' = index_of w + 1
       /\ state w' = Running
       /\ gameActive (gameState w') = gameActive (gameState w).
Proof.
  intros Hs Hk He Hquit Hskip Hbad. split.
  { intros t w0. apply processAnswer_rejects. exact Hbad. }
  rewrite (step_line w _ delay line Hs Hk He).
  eexists. split; [reflexivity|].
  unfold resume, nextQuestion_resume.
  apply String.eqb_neq in Hquit, Hskip. rewrite Hquit, Hskip.
  destruct awaited; unfold_io.
  all: destruct (0 <? timePerQuestion (gameState w));
    destruct (timerId (gameState w)); unfold_io.
  all: rewrite processAnswer_rejects by exact Hbad; unfold rejected; simpl.
  all: repeat split; try apply last_snoc; try reflexivity; exact Hs.
Qed.

Lemma invalid_answer_advances_witness :
  exists w', step (Line 4000 " 5 ") first_question_untimed = Some w'
    /\ last (console w') = Some InvalidAnswer
    /\ score_of w' = score_of first_question_untimed
    /\ index_of w' = index_of first_question_untimed + 1
    /\ state w' = Running
    /\ gameActive (gameState w') = gameActive (gameState first_question_untimed).
Proof.
  apply (invalid_answer_advances first_question_untimed two_plus_two 0 true
           4000 " 5 ").
  - reflexivity.
  - reflexivity.
  - split; [lia | constructor].
  - discriminate.
  - discriminate.
  - right. vm_compute. reflexivity.
Defined.

(** ** The category breakdown *)

Lemma filter_from_take {A : Type} (k i0 : Z) (l : list A) :
  filter_from (fun _ i => i <? k) i0 l = take (Z.to_nat (k - i0)) l.
Proof.
  revert i0. induction l as [|x l IH]; intros i0; simpl.
  - by rewrite take_nil.
  - destruct (i0 <? k) eqn:E.
    + apply Z.ltb_lt in E. rewrite IH.
      replace (Z.to_nat (k - i0)) with (S (Z.to_nat (k - (i0 + 1)))) by lia.
      reflexivity.
    + apply Z.ltb_ge in E. rewrite IH.
      replace (Z.to_nat (k - i0)) with 0%nat by lia.
      replace (Z.to_nat (k - (i0 + 1))) with 0%nat by lia.
      reflexivity.
Qed.

Lemma filter_indexed_take {A : Type} (k : Z) (l : list A) :
  filter_indexed (fun _ i => i <? k) l = take (Z.to_nat k) l.
Proof.
  unfold filter_indexed. rewrite filter_from_take. f_equal. lia.
Qed.

Lemma categoryStats_take (qs : list Question) (k : Z) :
  categoryStats qs k = fold_left add_category (take (Z.to_nat k) qs) ∅.
Proof. unfold categoryStats. by rewrite filter_indexed_take. Qed.

Lemma add_category_other (stats : gmap string CategoryStat) (q : Question)
    (c : string) :
  category q <> c -> add_category stats q !! c = stats !! c.
Proof.
  intros Hne. unfold add_category.
  destruct (stats !! category q) as [st|] eqn:E.
  - rewrite E. by rewrite lookup_insert_ne.
  - destruct (inherited (category q)).
    + rewrite E. reflexivity.
    + rewrite lookup_insert_eq. rewrite !lookup_insert_ne by done. reflexivity.
Qed.

Lemma add_category_same (stats : gmap string CategoryStat) (q : Question) :
  inherited (category q) = false ->
  add_category stats q !! category q = bump (stats !! category q) 1 (points q).
Proof.
  intros Hown. unfold add_category, bump. simpl.
  destruct (stats !! category q) as [st|] eqn:E.
  - rewrite E. by rewrite lookup_insert_eq.
  - rewrite Hown. rewrite lookup_insert_eq. rewrite lookup_insert_eq.
    reflexivity.
Qed.

Lemma fold_add_category (qs : list Question) (stats : gmap string CategoryStat)
    (c : string) :
  inherited c = false ->
  fold_left add_category qs stats !! c
  = bump (stats !! c) (category_count c qs) (category_points c qs).
Proof.
  intros Hown. revert stats.
  induction qs as [|q qs IH]; intros stats; simpl.
  - reflexivity.
  - rewrite IH. unfold category_count, category_points.
    destruct (decide (category q = c)) as [Heq|Hne].
    + rewrite filter_cons_True by exact Heq. simpl.
      subst c. rewrite add_category_same by exact Hown.
      set (n := length (filter (fun q0 => category q0 = category q) qs)).
      set (p := foldr (fun q0 total => points q0 + total) 0
                  (filter (fun q0 => category q0 = category q) qs)).
      unfold bump. simpl.
      replace (Z.of_nat (S n) =? 0) with false by (symmetry; apply Z.eqb_neq; lia).
      destruct (Z.of_nat n =? 0) eqn:En.
      * apply Z.eqb_eq in En. assert (n = 0%nat) as Hn by lia.
        assert (p = 0) as Hp.
        { subst p. subst n. apply length_zero_iff_nil in Hn. rewrite Hn.
          reflexivity. }
        rewrite Hp, Hn. simpl.
        destruct (stats !! category q) as [st|]; simpl; f_equal; f_equal; lia.
      * destruct (stats !! category q) as [st|]; simpl; f_equal; f_equal; lia.
    + rewrite filter_cons_False by exact Hne.
      rewrite add_category_other by exact Hne. reflexivity.
Qed.

(** The breakdown, entry by entry, in the words of the report. *)
Lemma categoryStats_lookup (qs : list Question) (k : Z) (c : string) :
  inherited c = false ->
  let reached := take (Z.to_nat k) qs in
  categoryStats qs k !! c
  = if category_count c reached =? 0 then None
    else Some (mkStat (category_count c reached) (category_points c reached)).
Proof.
  intros Hown reached. rewrite categoryStats_take.
  rewrite fold_add_category by exact Hown. unfold bump.
  rewrite lookup_empty. reflexivity.
Qed.

Lemma clearInterval_timerId (w : World) :
  clearInterval (timerId (gameState w)) w = Return tt (timer_cleared w).
Proof.
  unfold clearInterval, timer_cleared.
  destruct (timerId (gameState w)); reflexivity.
Qed.

Lemma gameState_timer_cleared (w : World) :
  gameState (timer_cleared w) = gameState w.
Proof. unfold timer_cleared. destruct (timerId (gameState w)); reflexivity. Qed.

Lemma console_timer_cleared (w : World) :
  console (timer_cleared w) = console w.
Proof. unfold timer_cleared. destruct (timerId (gameState w)); reflexivity. Qed.

Lemma questionCallback_timer_cleared (w : World) :
  questionCallback (timer_cleared w) = questionCallback w.
Proof. unfold timer_cleared. destruct (timerId (gameState w)); reflexivity. Qed.

Lemma state_timer_cleared (w : World) : state (timer_cleared w) = state w.
Proof. unfold timer_cleared. destruct (timerId (gameState w)); reflexivity. Qed.

Lemma endGame_ended (w : World) : endGame w = Return tt (ended w).
Proof.
  unfold endGame, ended, timer_cleared, rl_question, clearInterval.
  unfold_M. simpl.
  destruct (timerId (gameState w)); simpl;
    destruct (questionCallback w); reflexivity.
Qed.

Lemma gameState_ended (w : World) :
  gameState (ended w) = set_gameActive false (gameState w).
Proof.
  unfold ended. destruct (questionCallback w); simpl;
    apply gameState_timer_cleared.
Qed.

Lemma console_ended (w : World) :
  console (ended w)
  = console w ++ [GameOver (report (set_gameActive false (gameState w)))].
Proof.
  unfold ended. destruct (questionCallback w); simpl;
    by rewrite console_timer_cleared.
Qed.

Lemma countdown_stopped_run (w : World) :
  (if 0 <? timePerQuestion (gameState w)
   then clearInterval (timerId (gameState w));; log BlankLine
   else mret tt) w
  = Return tt (countdown_stopped w).
Proof.
  unfold countdown_stopped.
  destruct (0 <? timePerQuestion (gameState w)); [|reflexivity].
  unfold_M. rewrite clearInterval_timerId. reflexivity.
Qed.

Lemma gameState_countdown_stopped (w : World) :
  gameState (countdown_stopped w) = gameState w.
Proof.
  unfold countdown_stopped.
  destruct (0 <? timePerQuestion (gameState w)); simpl;
    [apply gameState_timer_cleared | reflexivity].
Qed.

Lemma questionCallback_countdown_stopped (w : World) :
  questionCallback (countdown_stopped w) = questionCallback w.
Proof.
  unfold countdown_stopped.
  destruct (0 <? timePerQuestion (gameState w)); simpl;
    [apply questionCallback_timer_cleared | reflexivity].
Qed.

(** The tail of [nextQuestion] on "quit". *)
Lemma nextQuestion_resume_quit (q : Question) (startTime : Z) (s : string)
    (w : World) :
  JS.toLowerCase s = "quit" ->
  nextQuestion_resume q startTime s w = Return tt (ended (countdown_stopped w)).
Proof.
  intros Hquit. unfold nextQuestion_resume.
  unfold mbind at 1 2 3. unfold M_bind. unfold Date_now, get.
  rewrite countdown_stopped_run. rewrite Hquit. simpl.
  apply endGame_ended.
Qed.

(** What the script does meet of C8, at the moment the quit line is
    handled: "quit" typed while question [k] is pending marks the game
    inactive with the index still [k]; the report printed then counts [k]
    questions answered, and its category breakdown is the one of the first
    [k] questions: per category, how many of them there are and the sum
    of their points. *)
Theorem quit_reports_first_k (w : World) (q : Question) (startTime : Z)
    (awaited : bool) (delay : Z) (line : string) (k : Z) :
  state w = Running ->
  questionCallback w = Some (user_answer q startTime awaited) ->
  line_enabled delay w ->
  JS.toLowerCase (JS.trim line) = "quit" ->
  index_of w = k ->
  exists w' r,
    step (Line delay line) w = Some w'
    /\ index_of w' = k
    /\ gameActive (gameState w') = false
    /\ questionCallback w' = Some play_again
    /\ last (console w') = Some (GameOver r)
    /\ questionsAnswered r = k
    /\ let reached := take (Z.to_nat k) (questions (gameState w)) in
       breakdown r = fold_left add_category reached ∅
       /\ forall c, inherited c = false ->
            breakdown r !! c
            = if category_count c reached =? 0 then None
              else Some (mkStat (category_count c reached)
                                (category_points c reached)).
Proof.
  intros Hs Hk He Hquit Hidx.
  rewrite (step_line w _ delay line Hs Hk He).
  set (w0 := with_questionCallback None (with_clock (clock w + delay) w)).
  assert (resume (user_answer q startTime awaited) line w0
          = Return tt (ended (countdown_stopped w0))) as Hres.
  { unfold resume.
    destruct awaited; unfold try_main, detached;
      rewrite (nextQuestion_resume_quit q startTime _ w0 Hquit); reflexivity. }
  rewrite Hres. simpl settle.
  exists (ended (countdown_stopped w0)).
  exists (report (set_gameActive false (gameState w))).
  assert (gameState (ended (countdown_stopped w0))
          = set_gameActive false (gameState w)) as Hgs.
  { rewrite gameState_ended, gameState_countdown_stopped. reflexivity. }
  split; [reflexivity|].
  unfold index_of. rewrite Hgs. simpl.
  split; [exact Hidx|]. split; [reflexivity|].
  split.
  { unfold ended. rewrite questionCallback_countdown_stopped. reflexivity. }
  split.
  { rewrite console_ended, gameState_countdown_stopped. apply last_snoc. }
  split; [exact Hidx|].
  unfold index_of in Hidx. rewrite Hidx. split.
  - apply categoryStats_take.
  - intros c Hc. apply categoryStats_lookup. exact Hc.
Qed.

Lemma quit_reports_first_k_witness :
  exists w' r,
    step (Line 2500 "Quit") first_question_untimed = Some w'
    /\ index_of w' = 0
    /\ gameActive (gameState w') = false
    /\ questionCallback w' = Some play_again
    /\ last (console w') = Some (GameOver r)
    /\ questionsAnswered r = 0
    /\ let reached := take (Z.to_nat 0) (questions (gameState first_question_untimed)) in
       breakdown r = fold_left add_category reached ∅
       /\ forall c, inherited c = false ->
            breakdown r !! c
            = if category_count c reached =? 0 then None
              else Some (mkStat (category_count c reached)
                                (category_points c reached)).
Proof.
  apply (quit_reports_first_k first_question_untimed two_plus_two 0 true
           2500 "Quit" 0).
  - reflexivity.
  - reflexivity.
  - split; [lia | constructor].
  - reflexivity.
  - reflexivity.
Defined.

(** ** Skip and timeout *)

(** [nextQuestion] itself never moves index, score or total time. *)
Lemma nextQuestion_progress (awaited : bool) (w : World) :
  progress (world_of (nextQuestion awaited w)) = progress w.
Proof.
  unfold nextQuestion. unfold mbind at 1. unfold M_bind, get.
  destruct (negb (gameActive (gameState w))
            || (Z.of_nat (length (questions (gameState w)))
                <=? currentQuestionIndex (gameState w))).
  - rewrite endGame_ended. simpl. unfold progress, index_of, score_of, time_of.
    rewrite gameState_ended. reflexivity.
  - destruct (element_at (questions (gameState w))
                (currentQuestionIndex (gameState w))) as [cq|];
      [|reflexivity].
    unfold displayQuestion, startTimer, askQuestion.
    unfold_io.
    destruct (0 <? timePerQuestion (gameState w)); simpl.
    + destruct (timerId (gameState w)); simpl;
        destruct (timePerQuestion (gameState w) <=? 0); simpl;
        destruct (questionCallback w); reflexivity.
    + destruct (questionCallback w); reflexivity.
Qed.

Lemma detached_nextQuestion (w : World) :
  exists w', detached (nextQuestion false) w = Return tt w'
             /\ progress w' = progress w.
Proof.
  unfold detached. pose proof (nextQuestion_progress false w) as H.
  destruct (nextQuestion false w) as [[] w'|e w']; simpl in H.
  - exists w'. split; [reflexivity | exact H].
  - exists (with_state (Crashed e) w'). split; [reflexivity | exact H].
Qed.

(** The tail of [nextQuestion] on "skip". *)
Lemma nextQuestion_resume_skip (q : Question) (startTime : Z) (s : string)
    (w : World) :
  JS.toLowerCase s = "skip" ->
  exists w', nextQuestion_resume q startTime s w = Return tt w'
    /\ progress w' = (index_of w + 1, score_of w, time_of w)
    /\ state w' = state w.
Proof.
  intros Hskip. unfold nextQuestion_resume.
  unfold mbind at 1 2 3. unfold M_bind. unfold Date_now, get.
  rewrite countdown_stopped_run. rewrite Hskip. simpl String.eqb. cbv iota.
  unfold_io. eexists. split; [reflexivity|].
  unfold progress, index_of, score_of, time_of. simpl.
  rewrite gameState_countdown_stopped. split; [reflexivity|].
  unfold countdown_stopped.
  destruct (0 <? timePerQuestion (gameState w)); simpl;
    [apply state_timer_cleared | reflexivity].
Qed.

(** C6, as the script has it.  A skip, and a timeout once its delayed
    [advance] has fired, each move the index on by exactly 1 and leave the
    score alone; neither adds anything to [totalTime].  The timeout tick
    itself changes nothing in [gameState]: it prints "Time's up" and
    schedules [advance] 2 seconds later. *)
Theorem skip_and_timeout_advance (w : World) :
  state w = Running ->
  (forall q startTime awaited delay line,
     questionCallback w = Some (user_answer q startTime awaited) ->
     line_enabled delay w ->
     JS.toLowerCase (JS.trim line) = "skip" ->
     exists w', step (Line delay line) w = Some w'
       /\ progress w' = (index_of w + 1, score_of w, time_of w))
  /\ (forall t timeLeft q,
        earliest (timers w) = Some t ->
        fn t = tick timeLeft false q -> timeLeft <= 1 ->
        handle t <> fresh w ->
        exists w', step Fire w = Some w'
          /\ gameState w' = gameState w
          /\ last (console w') = Some (TimesUp q)
          /\ mkTimer (fresh w) (clock w' + 2000) None advance ∈ timers w')
  /\ (forall t,
        earliest (timers w) = Some t -> fn t = advance ->
        exists w', step Fire w = Some w'
          /\ progress w' = (index_of w + 1, score_of w, time_of w)).
Proof.
  intros Hs. repeat split.
  - intros q startTime awaited delay line Hk He Hskip.
    rewrite (step_line w _ delay line Hs Hk He).
    set (w0 := with_questionCallback None (with_clock (clock w + delay) w)).
    destruct (nextQuestion_resume_skip q startTime _ w0 Hskip)
      as (w' & Hres & Hprog & _).
    exists w'. split; [|exact Hprog].
    unfold resume. destruct awaited; unfold try_main, detached;
      rewrite Hres; reflexivity.
  - intros t timeLeft q Ht Hfn Hleft Hfresh.
    unfold step. rewrite Hs, Ht. eexists. split; [reflexivity|].
    unfold fire, run_callback, run_tick. rewrite Hfn.
    replace (timeLeft - 1 <=? 0) with true by (symmetry; apply Z.leb_le; lia).
    destruct (period t); unfold_io.
    all: repeat split; try apply last_snoc.
    all: rewrite map_app; apply elem_of_app; right; simpl.
    all: unfold set_fn; simpl.
    all: destruct (Nat.eqb_spec (fresh w) (handle t)) as [E|E];
      [congruence | apply list_elem_of_singleton; reflexivity].
  - intros t Ht Hfn.
    unfold step. rewrite Hs, Ht.
    unfold fire, run_callback. rewrite Hfn.
    destruct (period t); unfold_M; simpl.
    all: match goal with
         | |- context [detached (nextQuestion false) ?W] =>
             destruct (detached_nextQuestion W) as (w' & E & Hp); rewrite E
         end.
    all: exists w'; split; [reflexivity | rewrite Hp; reflexivity].
Qed.


Lemma skip_and_timeout_advance_witness :
  (exists w', step (Line 5000 "SKIP") (after (opening None "no")) = Some w'
     /\ progress w' = (0 + 1, 0, 0))
  /\ (exists w', step Fire (after (opening None "yes" ++ fires 29)) = Some w'
        /\ gameState w' = gameState (after (opening None "yes" ++ fires 29))
        /\ last (console w') = Some (TimesUp two_plus_two)
        /\ mkTimer 1 (clock w' + 2000) None advance ∈ timers w')
  /\ (exists w', step Fire (after (opening None "yes" ++ fires 32)) = Some w'
        /\ progress w' = (0 + 1, 0, 0)).
Proof.
  split; [|split].
  - destruct (skip_and_timeout_advance (after (opening None "no")))
      as (H & _ & _); [vm_compute; reflexivity|].
    apply (H two_plus_two 0 true 5000 "SKIP");
      [vm_compute; reflexivity | split; [lia | vm_compute; constructor] | vm_compute; reflexivity].
  - destruct (skip_and_timeout_advance
                (after (opening None "yes" ++ fires 29)))
      as (_ & H & _); [vm_compute; reflexivity|].
    apply (H (mkTimer 0 30000 (Some 1000) (tick 1 false two_plus_two))
             1 two_plus_two);
      [vm_compute; reflexivity | reflexivity | lia | vm_compute; discriminate].
  - destruct (skip_and_timeout_advance
                (after (opening None "yes" ++ fires 32)))
      as (_ & _ & H); [vm_compute; reflexivity|].
    apply (H (mkTimer 1 32000 None advance)); [vm_compute; reflexivity | reflexivity].
Defined.

(** C6 as stated fails on the elapsed time.  A skip typed 5 seconds into
    the first question, and a timeout of the 30-second countdown, both
    move the index from 0 to 1, but [totalTime] stays where it was: neither
    the 5 seconds nor the 30 get added. *)
Lemma skip_and_timeout_record_no_time :
  (step (Line 5000 "skip") (after (opening None "no"))
     = Some (after (opening None "no" ++ [Line 5000 "skip"]))
   /\ JS.floor_seconds (clock (after (opening None "no" ++ [Line 5000 "skip"]))
                        - clock (after (opening None "no"))) = 5
   /\ index_of (after (opening None "no" ++ [Line 5000 "skip"])) = 1
   /\ time_of (after (opening None "no" ++ [Line 5000 "skip"]))
      <> time_of (after (opening None "no")) + 5)
  /\ (run (fires 33) (after (opening None "yes"))
        = Some (after (opening None "yes" ++ fires 33))
      /\ timePerQuestion (gameState (after (opening None "yes"))) = 30
      /\ index_of (after (opening None "yes" ++ fires 33)) = 1
      /\ time_of (after (opening None "yes" ++ fires 33))
         <> time_of (after (opening None "yes")) + 30).
Proof. repeat apply conj; vm_compute; try reflexivity; discriminate. Qed.

(** ** The report *)

Lemma percentage_of_zero (score : Z) :
  percentage_of score 0
  = if score =? 0 then JS.NaN
    else if 0 <? score then JS.PosInfinity else JS.NegInfinity.
Proof.
  unfold percentage_of, JS.div. simpl.
  destruct (score =? 0); [reflexivity|].
  destruct (0 <? score); reflexivity.
Qed.

(** C9, as the script has it.  The average is guarded: with no question
    answered it is the literal 0, otherwise the quotient by a positive
    count.  The percentage is not: with no possible points the division is
    carried out and gives NaN for a zero score and an infinity otherwise;
    nothing throws, the ladders just fall through to 'F' and the last
    feedback line (or, for a positive score, stop at 'A+' and the first). *)
Theorem report_divisions (gs : GameState) :
  (currentQuestionIndex gs = 0 -> averageTime (report gs) = AverageZero)
  /\ (0 < currentQuestionIndex gs ->
      averageTime (report gs)
      = AverageFixed (JS.Finite (inject_Z (totalTime gs)
                                 / inject_Z (currentQuestionIndex gs))))
  /\ (totalPossiblePoints (questions gs) = 0 ->
      percentage_of (score gs) (totalPossiblePoints (questions gs))
      = (if score gs =? 0 then JS.NaN
         else if 0 <? score gs then JS.PosInfinity else JS.NegInfinity)
      /\ grade (report gs) = (if 0 <? score gs then GradeAPlus else GradeF)
      /\ feedback (report gs)
         = (if 0 <? score gs then Outstanding else KeepLearning)).
Proof.
  repeat apply conj.
  - intros H. unfold report, average_time. simpl. rewrite H. reflexivity.
  - intros H. unfold report, average_time, JS.div. simpl.
    rewrite (proj2 (Z.ltb_lt _ _) H).
    replace (currentQuestionIndex gs =? 0) with false
      by (symmetry; apply Z.eqb_neq; lia).
    reflexivity.
  - intros H. unfold report. simpl. rewrite H.
    unfold calculateGrade, final_feedback. rewrite percentage_of_zero.
    repeat apply conj; [reflexivity | |].
    all: destruct (score gs =? 0) eqn:E0;
      [apply Z.eqb_eq in E0; rewrite E0; reflexivity|].
    all: destruct (0 <? score gs); reflexivity.
Qed.

Lemma report_divisions_witness :
  averageTime (report no_questions) = AverageZero
  /\ percentage_of (score no_questions) (totalPossiblePoints (questions no_questions)) = JS.NaN
  /\ grade (report no_questions) = GradeF
  /\ feedback (report no_questions) = KeepLearning.
Proof.
  destruct (report_divisions no_questions) as (H1 & _ & H2).
  split; [apply H1; reflexivity | apply H2; reflexivity].
Defined.

(** C9 as stated fails on the percentage: a session on an empty question
    list has no possible points, and its percentage is NaN, not a number
    that a guard would have put in its place. *)
Lemma percentage_is_not_guarded :
  totalPossiblePoints (questions no_questions) = 0
  /\ percentage_of (score no_questions)
       (totalPossiblePoints (questions no_questions)) = JS.NaN
  /\ JS.is_finite (percentage_of (score no_questions)
                     (totalPossiblePoints (questions no_questions))) = false.
Proof. repeat apply conj; reflexivity. Qed.

Example empty_question_list_ends_at_once :
  gameState (after (opening (Some []) "yes")) = no_questions
  /\ grade <$> last_report_of (after (opening (Some []) "yes")) = Some GradeF.
Proof. split; vm_compute; reflexivity. Qed.

(** ** The race between the countdown and the input *)

Lemma timers_processAnswer (q : Question) (s : string) (answerTime : Z)
    (w : World) :
  timers (world_of (processAnswer q s answerTime w)) = timers w.
Proof.
  unfold processAnswer.
  destruct (JS.parseInt s) as [n|]; [|reflexivity].
  destruct ((n - 1 <? 0) || (Z.of_nat (length (options q)) <=? n - 1));
    [reflexivity|].
  destruct (n - 1 =? answer q); [|reflexivity].
  unfold_M. simpl.
  destruct ((0 <? timePerQuestion (gameState w))
            && JS.lt_half answerTime (timePerQuestion (gameState w)));
    reflexivity.
Qed.

Lemma timers_ended (w : World) (t : timer) :
  t ∈ timers (ended w) -> t ∈ timers w.
Proof.
  unfold ended, timer_cleared.
  destruct (questionCallback w); simpl;
    destruct (timerId (gameState w)); simpl; try done.
  all: intros H; apply list_elem_of_filter in H; tauto.
Qed.

(** Whatever the line, the tail of [nextQuestion] leaves no timer behind
    that was not there once the countdown was stopped, except the [next]
    it may schedule. *)
Lemma timers_nextQuestion_resume (q : Question) (startTime : Z) (s : string)
    (w : World) (t : timer) :
  t ∈ timers (world_of (nextQuestion_resume q startTime s w)) ->
  t ∈ timers (countdown_stopped w) \/ fn t = next.
Proof.
  unfold nextQuestion_resume.
  unfold mbind at 1 2 3. unfold M_bind. unfold Date_now, get.
  rewrite countdown_stopped_run.
  destruct (String.eqb (JS.toLowerCase s) "quit").
  { rewrite endGame_ended. simpl. intros H. left. by apply timers_ended. }
  destruct (String.eqb (JS.toLowerCase s) "skip").
  { unfold_io. intros H. apply elem_of_app in H as [H|H]; [by left|].
    apply list_elem_of_singleton in H. subst t. by right. }
  unfold mbind at 1. unfold M_bind.
  pose proof (timers_processAnswer q s
                (JS.floor_seconds (clock w - startTime)) (countdown_stopped w))
    as Hts.
  destruct (processAnswer q s _ (countdown_stopped w)) as [b w1|e w1];
    simpl in Hts.
  - unfold_io. rewrite Hts. intros H.
    apply elem_of_app in H as [H|H]; [by left|].
    apply list_elem_of_singleton in H. subst t. by right.
  - simpl. rewrite Hts. by left.
Qed.

(** The half of C3 that holds: a line that reaches a pending question
    while the countdown [h] runs removes that countdown, so it cannot fire
    afterwards.  Every timer left is an older one with another handle, or
    a freshly scheduled [next]. *)
Lemma input_cancels_countdown (w : World) (q : Question) (startTime : Z)
    (awaited : bool) (delay : Z) (line : string) (h : nat) :
  state w = Running ->
  questionCallback w = Some (user_answer q startTime awaited) ->
  line_enabled delay w ->
  0 < timePerQuestion (gameState w) ->
  timerId (gameState w) = Some h ->
  exists w', step (Line delay line) w = Some w'
    /\ forall t, t ∈ timers w' ->
         (t ∈ timers w /\ handle t <> h) \/ fn t = next.
Proof.
  intros Hs Hk He Htpq Hid.
  rewrite (step_line w _ delay line Hs Hk He).
  set (w0 := with_questionCallback None (with_clock (clock w + delay) w)).
  eexists. split; [reflexivity|].
  intros t Ht.
  assert (t ∈ timers (world_of (nextQuestion_resume q startTime (JS.trim line) w0)))
    as Ht'.
  { unfold resume in Ht.
    destruct awaited; unfold try_main, detached in Ht;
      destruct (nextQuestion_resume q startTime (JS.trim line) w0);
      exact Ht. }
  apply timers_nextQuestion_resume in Ht' as [Ht'|Ht']; [left | by right].
  unfold countdown_stopped, timer_cleared in Ht'. subst w0. simpl in Ht'.
  rewrite (proj2 (Z.ltb_lt _ _) Htpq), Hid in Ht'. simpl in Ht'.
  apply list_elem_of_filter in Ht'. tauto.
Qed.

(** C3 (the code departs from it).  Only the timeout looks at the
    [answered] flag, and nothing but the timeout sets it; the input path
    never consults it.  In a game on the two fallback questions with the
    timer on, the countdown of question 0 runs out (30 ticks): "Time's up"
    is printed and [advance] is scheduled.  "skip", typed 0.7 s later, is
    still acted upon: the index goes to 1.  Then [advance] fires and the
    index goes to 2, although question 0 is the only one ever shown. *)
Theorem late_input_after_timeout_is_acted_upon :
  resolved <$> run (opening None "yes" ++ fires 30) boot
    = Some (0, [0], [TimesUp two_plus_two])
  /\ resolved <$> run (opening None "yes" ++ fires 30 ++ [Line 700 "skip"]) boot
    = Some (1, [0], [TimesUp two_plus_two; QuestionSkipped])
  /\ resolved <$> run (opening None "yes" ++ fires 30 ++ [Line 700 "skip"; Fire]) boot
    = Some (2, [0], [TimesUp two_plus_two; QuestionSkipped]).
Proof. repeat apply conj; vm_compute; reflexivity. Qed.

(** The same defect without any hurry on the player's side.  Question 0
    times out and question 1 comes up, but readline still holds the
    callback of question 0 and drops the new one: "3", the right answer to
    question 1, is judged against question 0 and found incorrect. *)
Example answer_after_timeout_is_judged_on_old_question :
  resolved <$> run (opening None "yes" ++ fires 33) boot
    = Some (1, [0; 1], [TimesUp two_plus_two])
  /\ resolved <$> run (opening None "yes" ++ fires 33 ++ [Line 100 "3"]) boot
    = Some (2, [0; 1], [TimesUp two_plus_two; Incorrect 2 (Some "4")]).
Proof. repeat apply conj; vm_compute; reflexivity. Qed.

(** C4 (the code departs from it).  With a question file of one question
    and the timer on, the timeout followed by a late "skip" leaves the
    index at 2, above the number of questions. *)
Theorem index_exceeds_question_count :
  (fun w => (index_of w, Z.of_nat (length (questions (gameState w)))))
    <$> run (opening (Some [two_plus_two]) "yes" ++ fires 30
             ++ [Line 700 "skip"; Fire]) boot
  = Some (2, 1).
Proof. vm_compute. reflexivity. Qed.

(** C8 (the code departs from it).  In a game on the two built-in
    questions with the timer on, the countdown of question 0 runs out and
    "quit" is typed 0.7 s later, while the timeout's delayed callback is
    still pending.  The quit ends the game at index 0 with a report on 0
    questions.  Nothing cancels the pending callback: 1.3 s later it
    increments the index to 1 and calls [nextQuestion], which, the game
    being inactive, calls [endGame] again: a second report is printed,
    on 1 question answered, with an entry for the category of question 0.
    The same after one answered question: quit at question 1, index 2 and
    a report on 2 questions in the end. *)
Theorem quit_after_timeout_is_overtaken :
  reported <$> run (opening None "yes" ++ fires 30 ++ [Line 700 "quit"]) boot
    = Some (0, false, [(0, None, None)])
  /\ reported
       <$> run (opening None "yes" ++ fires 30 ++ [Line 700 "quit"; Fire]) boot
     = Some (1, false, [(0, None, None); (1, Some (mkStat 1 5), None)])
  /\ reported
       <$> run (opening None "yes" ++ [Line 500 "1"; Fire] ++ fires 30
                ++ [Line 700 "quit"]) boot
     = Some (1, false, [(1, Some (mkStat 1 5), None)])
  /\ reported
       <$> run (opening None "yes" ++ [Line 500 "1"; Fire] ++ fires 30
                ++ [Line 700 "quit"; Fire]) boot
     = Some (2, false,
             [(1, Some (mkStat 1 5), None);
              (2, Some (mkStat 1 5), Some (mkStat 1 5))]).
Proof. repeat apply conj; vm_compute; reflexivity. Qed.

(** ** Playing again *)

(** C5 (the code departs from it).  [startGame] resets index, score and
    total time, but [timePerQuestion] is only ever set to 0, on "no", and
    never back.  A first game with the timer off (one wrong answer after
    4 s, then "quit"), "yes" to play again, and "yes" to the timer: the
    second game starts from (0, 0, 0) with [timePerQuestion] still 0 and no
    countdown running, while a first game started with "yes" has 30 and
    one. *)
Theorem play_again_keeps_timer_off :
  (fun w => (progress w, timePerQuestion (gameState w), length (timers w)))
    <$> run (opening None "no" ++ [Line 4000 "1"; Fire; Line 1000 "quit"]) boot
    = Some ((1, 0, 4), 0, 0%nat)
  /\ (fun w => (progress w, timePerQuestion (gameState w), length (timers w)))
       <$> run (opening None "no"
                ++ [Line 4000 "1"; Fire; Line 1000 "quit"; Line 0 "yes"]
                ++ opening None "yes") boot
     = Some ((0, 0, 0), 0, 0%nat)
  /\ (fun w => (progress w, timePerQuestion (gameState w), length (timers w)))
       <$> run (opening None "yes") boot
     = Some ((0, 0, 0), 30, 1%nat).
Proof. repeat apply conj; vm_compute; reflexivity. Qed.

(* ===================================================================== *)
(** * Further properties of the script *)
(* ===================================================================== *)

(** ** An answer, end to end *)

Lemma clock_countdown_stopped (w : World) :
  clock (countdown_stopped w) = clock w.
Proof.
  unfold countdown_stopped, timer_cleared.
  destruct (0 <? timePerQuestion (gameState w)); simpl;
    destruct (timerId (gameState w)); reflexivity.
Qed.

Lemma fresh_countdown_stopped (w : World) :
  fresh (countdown_stopped w) = fresh w.
Proof.
  unfold countdown_stopped, timer_cleared.
  destruct (0 <? timePerQuestion (gameState w)); simpl;
    destruct (timerId (gameState w)); reflexivity.
Qed.

Lemma state_countdown_stopped (w : World) :
  state (countdown_stopped w) = state w.
Proof.
  unfold countdown_stopped.
  destruct (0 <? timePerQuestion (gameState w)); simpl;
    [apply state_timer_cleared | reflexivity].
Qed.

Lemma console_countdown_stopped (w : World) :
  console (countdown_stopped w)
  = if 0 <? timePerQuestion (gameState w)
    then console w ++ [BlankLine] else console w.
Proof.
  unfold countdown_stopped.
  destruct (0 <? timePerQuestion (gameState w)); simpl;
    [by rewrite console_timer_cleared | reflexivity].
Qed.

(** The tail of [nextQuestion] on a line that is neither "quit" nor
    "skip": [processAnswer] runs on the world with the countdown stopped;
    if it returns, the index moves on, the elapsed seconds are added and
    [next] is scheduled 2 seconds later; if it throws, nothing else runs. *)
Lemma nextQuestion_resume_answer (q : Question) (startTime : Z) (s : string)
    (w : World) :
  JS.toLowerCase s <> "quit" -> JS.toLowerCase s <> "skip" ->
  nextQuestion_resume q startTime s w
  = let answerTime := JS.floor_seconds (clock w - startTime) in
    match processAnswer q s answerTime (countdown_stopped w) with
    | Return _ w1 =>
        Return tt
          (world_of
             (setTimeout next 2000
                (with_gameState
                   (fun g => set_totalTime (totalTime g + answerTime) g)
                   (with_gameState
                      (fun g => set_currentQuestionIndex
                                  (currentQuestionIndex g + 1) g) w1))))
    | Throw e w1 => Throw e w1
    end.
Proof.
  intros Hquit Hskip. unfold nextQuestion_resume.
  unfold mbind at 1 2 3. unfold M_bind. unfold Date_now, get.
  rewrite countdown_stopped_run.
  apply String.eqb_neq in Hquit, Hskip. rewrite Hquit, Hskip.
  unfold mbind at 1. unfold M_bind. simpl.
  destruct (processAnswer q s _ (countdown_stopped w)); reflexivity.
Qed.

(** X1.  An answer that names an option other than the right one: the
    line with the right answer is printed, the score stays, the index
    moves on by 1, the whole seconds since the question was asked are
    added to [totalTime], and the next question is scheduled 2 seconds
    later. *)
Theorem wrong_answer_advances (w : World) (q : Question) (startTime : Z)
    (awaited : bool) (delay : Z) (line : string) (n : Z) :
  state w = Running ->
  questionCallback w = Some (user_answer q startTime awaited) ->
  line_enabled delay w ->
  JS.toLowerCase (JS.trim line) <> "quit" ->
  JS.toLowerCase (JS.trim line) <> "skip" ->
  JS.parseInt (JS.trim line) = Some n ->
  1 <= n <= Z.of_nat (length (options q)) ->
  n - 1 <> answer q ->
  exists w', step (Line delay line) w = Some w'
    /\ last (console w')
       = Some (Incorrect (answer q + 1) (element_at (options q) (answer q)))
    /\ progress w'
       = (index_of w + 1, score_of w,
          time_of w + JS.floor_seconds (clock w + delay - startTime))
    /\ state w' = Running
    /\ mkTimer (fresh w) (clock w + delay + 2000) None next ∈ timers w'.
Proof.
  intros Hs Hk He Hquit Hskip Hp Hn Hwrong.
  rewrite (step_line w _ delay line Hs Hk He).
  set (w0 := with_questionCallback None (with_clock (clock w + delay) w)).
  pose proof (nextQuestion_resume_answer q startTime _ w0 Hquit Hskip) as Hnq.
  cbv zeta in Hnq.
  rewrite (processAnswer_option q _ (countdown_stopped w0) _ n Hp Hn) in Hnq.
  apply Z.eqb_neq in Hwrong. rewrite Hwrong in Hnq.
  eexists. split.
  { unfold resume. destruct awaited; unfold try_main, detached;
      rewrite Hnq; reflexivity. }
  unfold progress, index_of, score_of, time_of. simpl.
  rewrite gameState_countdown_stopped, state_countdown_stopped,
    clock_countdown_stopped, fresh_countdown_stopped.
  subst w0. simpl.
  repeat apply conj; try reflexivity; try exact Hs.
  - apply last_snoc.
  - apply elem_of_app. right. apply list_elem_of_singleton. reflexivity.
Qed.

Lemma wrong_answer_advances_witness :
  exists w', step (Line 4200 "1") first_question_untimed = Some w'
    /\ last (console w')
       = Some (Incorrect (answer two_plus_two + 1)
                 (element_at (options two_plus_two) (answer two_plus_two)))
    /\ progress w'
       = (index_of first_question_untimed + 1, score_of first_question_untimed,
          time_of first_question_untimed
          + JS.floor_seconds (clock first_question_untimed + 4200 - 0))
    /\ state w' = Running
    /\ mkTimer (fresh first_question_untimed)
         (clock first_question_untimed + 4200 + 2000) None next ∈ timers w'.
Proof.
  apply (wrong_answer_advances first_question_untimed two_plus_two 0 true
           4200 "1" 1).
  - reflexivity.
  - reflexivity.
  - split; [lia | constructor].
  - discriminate.
  - discriminate.
  - reflexivity.
  - simpl. lia.
  - discriminate.
Defined.

(** X2.  The right answer, given with the timer on in less than half the
    time per question, end to end: the bonus line is printed, the score
    grows by [points + floor(points * 0.5)], the index moves on by 1, the
    whole seconds taken are added to [totalTime] and the next question is
    scheduled 2 seconds later. *)
Theorem quick_right_answer_scores (w : World) (q : Question) (startTime : Z)
    (awaited : bool) (delay : Z) (line : string) (n : Z) :
  state w = Running ->
  questionCallback w = Some (user_answer q startTime awaited) ->
  line_enabled delay w ->
  JS.toLowerCase (JS.trim line) <> "quit" ->
  JS.toLowerCase (JS.trim line) <> "skip" ->
  JS.parseInt (JS.trim line) = Some n ->
  1 <= n <= Z.of_nat (length (options q)) ->
  n - 1 = answer q ->
  0 < timePerQuestion (gameState w) ->
  2 * JS.floor_seconds (clock w + delay - startTime)
    < timePerQuestion (gameState w) ->
  exists w', step (Line delay line) w = Some w'
    /\ last (console w')
       = Some (CorrectWithBonus (points q + JS.floor_half (points q)))
    /\ progress w'
       = (index_of w + 1,
          score_of w + (points q + JS.floor_half (points q)),
          time_of w + JS.floor_seconds (clock w + delay - startTime))
    /\ state w' = Running
    /\ mkTimer (fresh w) (clock w + delay + 2000) None next ∈ timers w'.
Proof.
  intros Hs Hk He Hquit Hskip Hp Hn Hright Htpq Hquick.
  rewrite (step_line w _ delay line Hs Hk He).
  set (w0 := with_questionCallback None (with_clock (clock w + delay) w)).
  pose proof (nextQuestion_resume_answer q startTime _ w0 Hquit Hskip) as Hnq.
  cbv zeta in Hnq.
  rewrite (processAnswer_option q _ (countdown_stopped w0) _ n Hp Hn) in Hnq.
  apply Z.eqb_eq in Hright. rewrite Hright in Hnq.
  rewrite gameState_countdown_stopped in Hnq.
  change (gameState w0) with (gameState w) in Hnq.
  change (clock w0) with (clock w + delay) in Hnq.
  rewrite (proj2 (Z.ltb_lt _ _) Htpq) in Hnq.
  rewrite (proj2 (lt_half_Z _ _) Hquick) in Hnq.
  cbv zeta in Hnq. simpl andb in Hnq. cbv iota in Hnq.
  eexists. split.
  { unfold resume. destruct awaited; unfold try_main, detached;
      rewrite Hnq; reflexivity. }
  unfold progress, index_of, score_of, time_of. simpl.
  rewrite gameState_countdown_stopped, state_countdown_stopped,
    fresh_countdown_stopped, clock_countdown_stopped.
  subst w0. simpl.
  repeat apply conj; try reflexivity; try exact Hs.
  - apply last_snoc.
  - apply elem_of_app. right. apply list_elem_of_singleton. reflexivity.
Qed.

Lemma quick_right_answer_scores_witness :
  exists w', step (Line 700 "2") (after (opening None "yes" ++ fires 9)) = Some w'
    /\ last (console w') = Some (CorrectWithBonus (5 + JS.floor_half 5))
    /\ progress w' = (0 + 1, 0 + (5 + JS.floor_half 5),
                      0 + JS.floor_seconds (9000 + 700 - 0))
    /\ state w' = Running
    /\ mkTimer 1 (9000 + 700 + 2000) None next ∈ timers w'.
Proof.
  apply (quick_right_answer_scores (after (opening None "yes" ++ fires 9))
           two_plus_two 0 true 700 "2" 2).
  - vm_compute. reflexivity.
  - vm_compute. reflexivity.
  - split; [lia | vm_compute; repeat constructor; discriminate].
  - discriminate.
  - discriminate.
  - reflexivity.
  - simpl. lia.
  - reflexivity.
  - vm_compute. reflexivity.
  - vm_compute. reflexivity.
Defined.

(** X3.  The right answer outside the bonus window (timer off, or half the
    time gone), end to end: [processAnswer] throws, so the tail of
    [nextQuestion] stops there.  [gameState] is as before (the index has
    not moved), no question is pending and nothing new is scheduled; if
    this [nextQuestion] is the one [startGame] awaits, the [catch] of
    [main] prints the error and closes the interface. *)
Theorem slow_right_answer_stops_the_game (w : World) (q : Question)
    (startTime : Z) (awaited : bool) (delay : Z) (line : string) (n : Z) :
  state w = Running ->
  questionCallback w = Some (user_answer q startTime awaited) ->
  line_enabled delay w ->
  JS.toLowerCase (JS.trim line) <> "quit" ->
  JS.toLowerCase (JS.trim line) <> "skip" ->
  JS.parseInt (JS.trim line) = Some n ->
  1 <= n <= Z.of_nat (length (options q)) ->
  n - 1 = answer q ->
  timePerQuestion (gameState w) <= 0
  \/ timePerQuestion (gameState w)
     <= 2 * JS.floor_seconds (clock w + delay - startTime) ->
  exists w', step (Line delay line) w = Some w'
    /\ gameState w' = gameState w
    /\ questionCallback w' = None
    /\ (forall t, t ∈ timers w' -> t ∈ timers w)
    /\ (awaited = true ->
        state w' = Closed
        /\ last (console w') = Some (ErrorOccurred JS.ReferenceError)).
Proof.
  intros Hs Hk He Hquit Hskip Hp Hn Hright Hslow.
  rewrite (step_line w _ delay line Hs Hk He).
  set (w0 := with_questionCallback None (with_clock (clock w + delay) w)).
  pose proof (nextQuestion_resume_answer q startTime _ w0 Hquit Hskip) as Hnq.
  cbv zeta in Hnq.
  rewrite (processAnswer_no_bonus_throws q _ _ n (countdown_stopped w0)) in Hnq;
    [ | exact Hp | exact Hn | exact Hright | ].
  2:{ rewrite gameState_countdown_stopped.
      change (gameState w0) with (gameState w).
      change (clock w0) with (clock w + delay).
      destruct Hslow as [H|H]; [left; exact H | right].
      apply Qnot_lt_le. intros Hlt. apply lt_half_Q in Hlt.
      apply lt_half_Z in Hlt. lia. }
  assert (forall t, t ∈ timers (countdown_stopped w0) -> t ∈ timers w) as Hts.
  { intros t. unfold countdown_stopped, timer_cleared. subst w0. simpl.
    destruct (0 <? timePerQuestion (gameState w)); simpl;
      destruct (timerId (gameState w)); simpl; try done.
    intros H. apply list_elem_of_filter in H. tauto. }
  unfold resume.
  destruct awaited; unfold try_main, detached; rewrite Hnq;
    (eexists; split; [reflexivity|]); unfold_io.
  all: rewrite ?gameState_countdown_stopped, ?questionCallback_countdown_stopped.
  all: repeat apply conj; try reflexivity; try exact Hts.
  - intros _. split; [reflexivity | apply last_snoc].
  - discriminate.
Qed.

Lemma slow_right_answer_stops_the_game_witness :
  exists w', step (Line 3000 "2") first_question_untimed = Some w'
    /\ gameState w' = gameState first_question_untimed
    /\ questionCallback w' = None
    /\ (forall t, t ∈ timers w' -> t ∈ timers first_question_untimed)
    /\ (true = true ->
        state w' = Closed
        /\ last (console w') = Some (ErrorOccurred JS.ReferenceError)).
Proof.
  apply (slow_right_answer_stops_the_game first_question_untimed two_plus_two
           0 true 3000 "2" 2).
  - reflexivity.
  - reflexivity.
  - split; [lia | constructor].
  - discriminate.
  - discriminate.
  - reflexivity.
  - simpl. lia.
  - reflexivity.
  - left. simpl. lia.
Defined.

(** ** The menu and the start of a game *)

Lemma element_at_Some_lt {A : Type} (l : list A) (i : Z) (x : A) :
  element_at l i = Some x -> 0 <= i < Z.of_nat (length l).
Proof.
  unfold element_at. destruct (i <? 0) eqn:E; [discriminate|].
  intros H. apply lookup_lt_Some in H. apply Z.ltb_ge in E. lia.
Qed.

(** [nextQuestion] on an active game whose index points at a question. *)
Lemma nextQuestion_asks (awaited : bool) (cq : Question) (w : World) :
  gameActive (gameState w) = true ->
  element_at (questions (gameState w)) (currentQuestionIndex (gameState w))
    = Some cq ->
  nextQuestion awaited w = Return tt (asked awaited cq w).
Proof.
  intros Hact Hcq. pose proof (element_at_Some_lt _ _ _ Hcq) as Hlt.
  unfold nextQuestion. unfold mbind at 1. unfold M_bind, get.
  rewrite Hact.
  replace (Z.of_nat (length (questions (gameState w)))
           <=? currentQuestionIndex (gameState w)) with false
    by (symmetry; apply Z.leb_gt; lia).
  simpl. rewrite Hcq. unfold asked, displayQuestion, startTimer, askQuestion.
  unfold_io. unfold timer_cleared. simpl.
  destruct (0 <? timePerQuestion (gameState w)) eqn:Et; simpl.
  - apply Z.ltb_lt in Et.
    destruct (timerId (gameState w)); simpl.
    all: destruct (timePerQuestion (gameState w) <=? 0) eqn:El;
      [apply Z.leb_le in El; lia|].
    all: simpl; destruct (questionCallback w); reflexivity.
  - destruct (questionCallback w); reflexivity.
Qed.

(** X4.  At the menu, anything but "1" and "3" brings the menu back:
    "2" after the rules, any other line after the invalid-option message.
    Nothing of the game state, the timers or the interface changes. *)
Theorem menu_comes_back (w : World) (delay : Z) (line : string) :
  state w = Running ->
  questionCallback w = Some menu_choice ->
  line_enabled delay w ->
  JS.trim line <> "1" -> JS.trim line <> "3" ->
  exists w', step (Line delay line) w = Some w'
    /\ console w'
       = console w
         ++ [if String.eqb (JS.trim line) "2" then GameRules else InvalidOption;
             MainMenu]
    /\ gameState w' = gameState w
    /\ questionCallback w' = Some menu_choice
    /\ timers w' = timers w
    /\ state w' = Running.
Proof.
  intros Hs Hk He H1 H3.
  rewrite (step_line w _ delay line Hs Hk He).
  eexists. split; [reflexivity|].
  unfold resume, showMenu_resume, showMenu, displayRules, askQuestion.
  apply String.eqb_neq in H1, H3. rewrite H1, H3.
  destruct (String.eqb (JS.trim line) "2"); unfold_io.
  all: rewrite <- app_assoc; repeat apply conj; try reflexivity; exact Hs.
Qed.

Lemma menu_comes_back_witness :
  exists w', step (Line 0 (nbsp +:+ "2 ")) (after [FileRead None]) = Some w'
    /\ console w'
       = console (after [FileRead None])
         ++ [if String.eqb (JS.trim (nbsp +:+ "2 ")) "2"
             then GameRules else InvalidOption;
             MainMenu]
    /\ gameState w' = gameState (after [FileRead None])
    /\ questionCallback w' = Some menu_choice
    /\ timers w' = timers (after [FileRead None])
    /\ state w' = Running.
Proof.
  apply (menu_comes_back (after [FileRead None]) 0 (nbsp +:+ "2 ")).
  - reflexivity.
  - reflexivity.
  - split; [lia | constructor].
  - vm_compute. discriminate.
  - vm_compute. discriminate.
Defined.

(** X5.  "1" at the menu starts a game whatever the state was: the game
    is active with index, score and total time at 0; the questions, the
    time per question and the timer handle are the ones that were there;
    the timer question is pending. *)
Theorem start_resets_progress (w : World) (delay : Z) (line : string) :
  state w = Running ->
  questionCallback w = Some menu_choice ->
  line_enabled delay w ->
  JS.trim line = "1" ->
  exists w', step (Line delay line) w = Some w'
    /\ gameState w'
       = mkGameState 0 0 0 true (questions (gameState w))
           (timePerQuestion (gameState w)) (timerId (gameState w))
    /\ questionCallback w' = Some use_timer
    /\ timers w' = timers w
    /\ state w' = Running.
Proof.
  intros Hs Hk He H1.
  rewrite (step_line w _ delay line Hs Hk He).
  eexists. split; [reflexivity|].
  unfold resume, showMenu_resume, startGame, askQuestion. rewrite H1.
  unfold_io. repeat apply conj; try reflexivity; exact Hs.
Qed.

Lemma start_resets_progress_witness :
  exists w', step (Line 0 "1")
               (after (opening None "no"
                       ++ [Line 4000 "1"; Fire; Line 1000 "quit"; Line 0 "yes";
                           FileRead None])) = Some w'
    /\ gameState w' = mkGameState 0 0 0 true fallback_questions 0 None
    /\ questionCallback w' = Some use_timer
    /\ timers w' = []
    /\ state w' = Running.
Proof.
  apply (start_resets_progress
           (after (opening None "no"
                   ++ [Line 4000 "1"; Fire; Line 1000 "quit"; Line 0 "yes";
                       FileRead None])) 0 "1").
  - vm_compute. reflexivity.
  - vm_compute. reflexivity.
  - split; [lia | vm_compute; constructor].
  - reflexivity.
Defined.

(** X6.  The answer to the timer question.  Only "no" (in any case, with
    white space around it) switches the timer off; any other line leaves
    [timePerQuestion] as it is.  The first question is then asked: with a
    positive time per question the countdown held by [timerId] is cleared
    and one countdown for the question, starting at that time, is
    appended; otherwise the timers are left alone. *)
Theorem timer_answer (w : World) (delay : Z) (line : string) (cq : Question) :
  state w = Running ->
  questionCallback w = Some use_timer ->
  line_enabled delay w ->
  gameActive (gameState w) = true ->
  element_at (questions (gameState w)) (currentQuestionIndex (gameState w))
    = Some cq ->
  exists w', step (Line delay line) w = Some w'
    /\ timePerQuestion (gameState w')
       = (if String.eqb (JS.toLowerCase (JS.trim line)) "no" then 0
          else timePerQuestion (gameState w))
    /\ progress w' = progress w
    /\ questionCallback w' = Some (user_answer cq (clock w + delay) true)
    /\ (timePerQuestion (gameState w') <= 0 -> timers w' = timers w)
    /\ (0 < timePerQuestion (gameState w') ->
        timers w'
        = timers (timer_cleared w)
          ++ [mkTimer (fresh w) (clock w + delay + 1000) (Some 1000)
                (tick (timePerQuestion (gameState w)) false cq)]
        /\ timerId (gameState w') = Some (fresh w)).
Proof.
  intros Hs Hk He Hact Hcq.
  rewrite (step_line w _ delay line Hs Hk He).
  set (w0 := with_questionCallback None (with_clock (clock w + delay) w)).
  unfold resume, startGame_resume, try_main.
  unfold mbind at 1. unfold M_bind.
  destruct (String.eqb (JS.toLowerCase (JS.trim line)) "no"); unfold_M.
  - rewrite (nextQuestion_asks true cq); [ | exact Hact | exact Hcq].
    eexists. split; [reflexivity|].
    unfold asked, timer_cleared, progress, index_of, score_of, time_of.
    simpl. repeat apply conj; try reflexivity; intros; lia.
  - rewrite (nextQuestion_asks true cq); [ | exact Hact | exact Hcq].
    eexists. split; [reflexivity|].
    unfold asked, timer_cleared, progress, index_of, score_of, time_of.
    simpl.
    destruct (0 <? timePerQuestion (gameState w)) eqn:Et; simpl.
    + apply Z.ltb_lt in Et.
      destruct (timerId (gameState w)); simpl;
        repeat apply conj; try reflexivity;
        try (intros; lia); intros _; split; reflexivity.
    + apply Z.ltb_ge in Et.
      repeat apply conj; try reflexivity; intros; lia.
Qed.

Lemma timer_answer_witness :
  exists w', step (Line 0 (nbsp +:+ "No ")) (after [FileRead None; Line 0 "1"]) = Some w'
    /\ timePerQuestion (gameState w')
       = (if String.eqb (JS.toLowerCase (JS.trim (nbsp +:+ "No "))) "no" then 0
          else timePerQuestion (gameState (after [FileRead None; Line 0 "1"])))
    /\ progress w' = progress (after [FileRead None; Line 0 "1"])
    /\ questionCallback w'
       = Some (user_answer two_plus_two
                 (clock (after [FileRead None; Line 0 "1"]) + 0) true)
    /\ (timePerQuestion (gameState w') <= 0 ->
        timers w' = timers (after [FileRead None; Line 0 "1"]))
    /\ (0 < timePerQuestion (gameState w') ->
        timers w'
        = timers (timer_cleared (after [FileRead None; Line 0 "1"]))
          ++ [mkTimer (fresh (after [FileRead None; Line 0 "1"]))
                (clock (after [FileRead None; Line 0 "1"]) + 0 + 1000)
                (Some 1000)
                (tick (timePerQuestion
                         (gameState (after [FileRead None; Line 0 "1"])))
                   false two_plus_two)]
        /\ timerId (gameState w')
           = Some (fresh (after [FileRead None; Line 0 "1"]))).
Proof.
  apply (timer_answer (after [FileRead None; Line 0 "1"]) 0 (nbsp +:+ "No ")
           two_plus_two).
  - reflexivity.
  - reflexivity.
  - split; [lia | constructor].
  - reflexivity.
  - reflexivity.
Defined.

(** ** After the game, the question file, and SIGINT *)

(** X7.  The answer to "Play again?" is compared untrimmed: only a line
    that is exactly "yes" up to case starts [main] again (the screen is
    cleared twice, the welcome is printed and the question file is read
    again); any other line, " yes" or "y" included, says goodbye and
    closes the interface.  [gameState] is not touched either way. *)
Theorem play_again_answer (w : World) (delay : Z) (line : string) :
  state w = Running ->
  questionCallback w = Some play_again ->
  line_enabled delay w ->
  exists w', step (Line delay line) w = Some w'
    /\ gameState w' = gameState w
    /\ questionCallback w' = None
    /\ if String.eqb (JS.toLowerCase line) "yes"
       then state w' = Running /\ reading w' = true
            /\ console w'
               = console w
                 ++ [Cleared; Cleared;
                     Welcome (timePerQuestion (gameState w))]
       else state w' = Closed
            /\ console w' = console w ++ [ThanksForPlaying].
Proof.
  intros Hs Hk He.
  rewrite (step_line w _ delay line Hs Hk He).
  eexists. split; [reflexivity|].
  unfold resume, play_again_callback, main, displayWelcome.
  destruct (String.eqb (JS.toLowerCase line) "yes"); unfold_io.
  - rewrite <- !app_assoc. repeat apply conj; try reflexivity; exact Hs.
  - repeat apply conj; reflexivity.
Qed.

Lemma play_again_answer_witness :
  exists w', step (Line 0 " yes")
               (after (opening None "no" ++ [Line 1000 "quit"])) = Some w'
    /\ gameState w' = gameState (after (opening None "no" ++ [Line 1000 "quit"]))
    /\ questionCallback w' = None
    /\ if String.eqb (JS.toLowerCase " yes") "yes"
       then state w' = Running /\ reading w' = true
            /\ console w'
               = console (after (opening None "no" ++ [Line 1000 "quit"]))
                 ++ [Cleared; Cleared;
                     Welcome (timePerQuestion
                                (gameState (after (opening None "no"
                                                   ++ [Line 1000 "quit"]))))]
       else state w' = Closed
            /\ console w'
               = console (after (opening None "no" ++ [Line 1000 "quit"]))
                 ++ [ThanksForPlaying].
Proof.
  apply (play_again_answer (after (opening None "no" ++ [Line 1000 "quit"]))
           0 " yes").
  - reflexivity.
  - reflexivity.
  - split; [lia | constructor].
Defined.

Lemma fallback_questions_well_formed : Forall well_formed fallback_questions.
Proof.
  unfold fallback_questions, well_formed.
  repeat constructor; simpl; lia.
Qed.

(** X8.  When the read of the question file completes.  If it failed
    (no file, no JSON), the questions are the two built-in ones, both well
    formed, after a warning; if the file parsed to an array of question
    records, they are that array; either way nothing else in [gameState]
    changes and the quiz summary and the menu follow.  If the file parsed
    to something the quiz summary throws on (not an array, or an array
    with an element that has no [question] string), there is no menu: the
    [catch] of [main] prints the error and closes the interface, and no
    event is handled after that. *)
Theorem questions_loaded (w : World) :
  state w = Running ->
  reading w = true ->
  questionCallback w = None ->
  (forall file : option (list Question),
     exists w', step (FileRead file) w = Some w'
       /\ gameState w'
          = set_questions (default fallback_questions file) (gameState w)
       /\ console w'
          = console w
            ++ match file with Some _ => [] | None => [LoadFailed] end
            ++ [QuizSummary (default fallback_questions file); MainMenu]
       /\ (file = None -> Forall well_formed (questions (gameState w')))
       /\ questionCallback w' = Some menu_choice
       /\ reading w' = false
       /\ state w' = Running)
  /\ exists w', step FileMisshapen w = Some w'
       /\ console w'
          = console w ++ [QuizSummaryBroken; ErrorOccurred JS.TypeError]
       /\ questionCallback w' = None
       /\ state w' = Closed
       /\ forall e, step e w' = None.
Proof.
  intros Hs Hr Hk. split.
  - intros file. unfold step. rewrite Hs, Hr.
    eexists. split; [reflexivity|].
    unfold main_resume, loadQuestions_resume, showMenu, askQuestion.
    destruct file as [qs|]; unfold_io; rewrite Hk; simpl.
    + rewrite <- !app_assoc. repeat apply conj; try reflexivity; try exact Hs.
      discriminate.
    + rewrite <- !app_assoc. repeat apply conj; try reflexivity; try exact Hs.
      intros _. exact fallback_questions_well_formed.
  - unfold step at 1. rewrite Hs, Hr.
    eexists. split; [reflexivity|].
    unfold main_resume_misshapen. unfold_io.
    rewrite <- app_assoc.
    repeat apply conj; try reflexivity; exact Hk.
Qed.

Lemma questions_loaded_witness :
  (exists w', step (FileRead None) boot = Some w'
     /\ gameState w'
        = set_questions (default fallback_questions None) (gameState boot)
     /\ console w'
        = console boot
          ++ [LoadFailed]
          ++ [QuizSummary (default fallback_questions None); MainMenu]
     /\ (@None (list Question) = None ->
         Forall well_formed (questions (gameState w')))
     /\ questionCallback w' = Some menu_choice
     /\ reading w' = false
     /\ state w' = Running)
  /\ exists w', step FileMisshapen boot = Some w'
       /\ console w'
          = console boot ++ [QuizSummaryBroken; ErrorOccurred JS.TypeError]
       /\ questionCallback w' = None
       /\ state w' = Closed
       /\ forall e, step e w' = None.
Proof.
  destruct (questions_loaded boot) as [H1 H2]; try reflexivity.
  split; [exact (H1 None) | exact H2].
Defined.

(** X9.  SIGINT, whenever it comes while the program runs: the farewell
    is printed, the countdown held by [timerId] is cleared, the process
    exits, and no event is handled after that.  [gameState] is left as it
    is. *)
Theorem sigint_exits (w : World) :
  state w = Running ->
  exists w', step SIGINT w = Some w'
    /\ state w' = Exited
    /\ console w' = console w ++ [ThanksForPlaying]
    /\ timers w' = timers (timer_cleared w)
    /\ gameState w' = gameState w
    /\ forall e, step e w' = None.
Proof.
  intros Hs. unfold step at 1. rewrite Hs.
  eexists. split; [reflexivity|].
  unfold on_SIGINT, timer_cleared. unfold_io.
  destruct (timerId (gameState w)); unfold_io;
    repeat apply conj; try reflexivity; intros e; reflexivity.
Qed.

Lemma sigint_exits_witness :
  exists w', step SIGINT (after (opening None "yes" ++ fires 3)) = Some w'
    /\ state w' = Exited
    /\ console w'
       = console (after (opening None "yes" ++ fires 3)) ++ [ThanksForPlaying]
    /\ timers w' = timers (timer_cleared (after (opening None "yes" ++ fires 3)))
    /\ gameState w' = gameState (after (opening None "yes" ++ fires 3))
    /\ forall e, step e w' = None.
Proof.
  apply (sigint_exits (after (opening None "yes" ++ fires 3))).
  vm_compute. reflexivity.
Defined.

(** ** The countdown *)

(** X10.  A tick of the countdown that is not the timeout (more than one
    second was left, or the timeout has already been acted upon) only
    prints the seconds remaining: [gameState], the pending question and
    the number of timers stay as they are and nothing is scheduled.  After
    the timeout the countdown keeps ticking in this way, through negative
    numbers, until something clears it. *)
Theorem idle_tick_only_prints (w : World) (t : timer) (timeLeft d : Z)
    (answered : bool) (q : Question) :
  state w = Running ->
  earliest (timers w) = Some t ->
  fn t = tick timeLeft answered q ->
  period t = Some d ->
  answered = true \/ 1 < timeLeft ->
  exists w', step Fire w = Some w'
    /\ console w' = console w ++ [TimeRemaining (timeLeft - 1)]
    /\ gameState w' = gameState w
    /\ questionCallback w' = questionCallback w
    /\ length (timers w') = length (timers w)
    /\ fresh w' = fresh w
    /\ state w' = Running.
Proof.
  intros Hs Ht Hfn Hp Hidle.
  unfold step. rewrite Hs, Ht. eexists. split; [reflexivity|].
  unfold fire, run_callback, run_tick. rewrite Hfn, Hp.
  destruct (timeLeft - 1 <=? 0) eqn:E.
  - destruct Hidle as [->|Hlt]; [|apply Z.leb_le in E; lia].
    unfold_io. rewrite !length_map.
    repeat apply conj; try reflexivity; exact Hs.
  - unfold_io. rewrite !length_map.
    repeat apply conj; try reflexivity; exact Hs.
Qed.

Lemma idle_tick_only_prints_witness :
  exists w', step Fire (after (opening None "yes" ++ fires 30)) = Some w'
    /\ console w'
       = console (after (opening None "yes" ++ fires 30))
         ++ [TimeRemaining (0 - 1)]
    /\ gameState w' = gameState (after (opening None "yes" ++ fires 30))
    /\ questionCallback w'
       = questionCallback (after (opening None "yes" ++ fires 30))
    /\ length (timers w')
       = length (timers (after (opening None "yes" ++ fires 30)))
    /\ fresh w' = fresh (after (opening None "yes" ++ fires 30))
    /\ state w' = Running.
Proof.
  apply (idle_tick_only_prints (after (opening None "yes" ++ fires 30))
           (mkTimer 0 31000 (Some 1000) (tick 0 true two_plus_two))
           0 1000 true two_plus_two).
  - vm_compute. reflexivity.
  - vm_compute. reflexivity.
  - reflexivity.
  - reflexivity.
  - left. reflexivity.
Defined.

(** One tick of a countdown that is the only timer and has more than one
    second left. *)
Lemma lone_countdown_tick (w : World) (h : nat) (d timeLeft : Z)
    (q : Question) :
  state w = Running ->
  timers w = [mkTimer h d (Some 1000) (tick timeLeft false q)] ->
  clock w <= d -> 1 < timeLeft ->
  exists w', step Fire w = Some w'
    /\ state w' = Running
    /\ timers w' = [mkTimer h (d + 1000) (Some 1000) (tick (timeLeft - 1) false q)]
    /\ clock w' = d
    /\ gameState w' = gameState w
    /\ console w' = console w ++ [TimeRemaining (timeLeft - 1)]
    /\ fresh w' = fresh w.
Proof.
  intros Hs Hts Hclock Hleft.
  unfold step. rewrite Hs, Hts. simpl earliest. cbv iota.
  eexists. split; [reflexivity|].
  unfold fire, run_callback, run_tick. simpl fn. simpl period. cbv iota.
  replace (timeLeft - 1 <=? 0) with false by (symmetry; apply Z.leb_gt; lia).
  unfold_io. rewrite Hts. simpl.
  unfold reschedule, set_fn. simpl. rewrite Nat.eqb_refl. simpl.
  rewrite Nat.eqb_refl.
  repeat apply conj; try reflexivity; try exact Hs. lia.
Qed.

(** The last tick of a countdown that is the only timer. *)
Lemma lone_countdown_timeout (w : World) (h : nat) (d : Z) (q : Question) :
  state w = Running ->
  timers w = [mkTimer h d (Some 1000) (tick 1 false q)] ->
  clock w <= d -> h <> fresh w ->
  exists w', step Fire w = Some w'
    /\ state w' = Running
    /\ timers w' = [mkTimer h (d + 1000) (Some 1000) (tick 0 true q);
                    mkTimer (fresh w) (d + 2000) None advance]
    /\ clock w' = d
    /\ gameState w' = gameState w
    /\ console w' = console w ++ [TimeRemaining 0; TimesUp q].
Proof.
  intros Hs Hts Hclock Hfresh.
  unfold step. rewrite Hs, Hts. simpl earliest. cbv iota.
  eexists. split; [reflexivity|].
  unfold fire, run_callback, run_tick. simpl fn. simpl period. cbv iota.
  unfold_io. rewrite Hts. simpl.
  unfold reschedule, set_fn. simpl. rewrite Nat.eqb_refl. simpl.
  rewrite Nat.eqb_refl.
  destruct (Nat.eqb_spec (fresh w) h) as [E|E]; [congruence|].
  replace (Z.max (clock w) d) with d by lia.
  rewrite <- app_assoc.
  repeat apply conj; try reflexivity; exact Hs.
Qed.

(** X11.  A countdown of [k + 1] seconds that is the only timer, with no
    line typed meanwhile: its first [k] ticks change nothing but the
    display (no resolution is printed, nothing is scheduled, [gameState]
    is as before); tick number [k + 1] is the timeout, which prints
    "Time's up", leaves [gameState] alone once more and schedules
    [advance] 2 seconds later while the countdown itself stays armed. *)
Theorem countdown_times_out_on_last_tick (k : nat) (w : World) (h : nat)
    (d : Z) (q : Question) :
  state w = Running ->
  timers w = [mkTimer h d (Some 1000) (tick (Z.of_nat (S k)) false q)] ->
  clock w <= d -> h <> fresh w ->
  exists w1 w2,
    run (fires k) w = Some w1
    /\ gameState w1 = gameState w
    /\ filter is_resolution (console w1) = filter is_resolution (console w)
    /\ fresh w1 = fresh w
    /\ step Fire w1 = Some w2
    /\ gameState w2 = gameState w
    /\ last (console w2) = Some (TimesUp q)
    /\ clock w2 = d + 1000 * Z.of_nat k
    /\ timers w2
       = [mkTimer h (d + 1000 * Z.of_nat k + 1000) (Some 1000) (tick 0 true q);
          mkTimer (fresh w) (d + 1000 * Z.of_nat k + 2000) None advance].
Proof.
  revert w d. induction k as [|k IH]; intros w d Hs Hts Hclock Hfresh.
  - exists w.
    destruct (lone_countdown_timeout w h d q Hs Hts Hclock Hfresh)
      as (w2 & Hstep & _ & Hts2 & Hc2 & Hg2 & Hcon2).
    exists w2. simpl fires. simpl run. rewrite Hts2, Hc2, Hcon2.
    replace (d + 1000 * Z.of_nat 0) with d by lia.
    repeat apply conj; try reflexivity; try assumption.
    change [TimeRemaining 0; TimesUp q] with ([TimeRemaining 0] ++ [TimesUp q]).
    rewrite app_assoc. apply last_snoc.
  - destruct (lone_countdown_tick w h d (Z.of_nat (S (S k))) q Hs Hts Hclock)
      as (w' & Hstep & Hs' & Hts' & Hc' & Hg' & Hcon' & Hf'); [lia|].
    replace (Z.of_nat (S (S k)) - 1) with (Z.of_nat (S k)) in Hts' by lia.
    destruct (IH w' (d + 1000) Hs' Hts') as (w1 & w2 & H); [lia | congruence |].
    destruct H as (Hrun & Hg1 & Hres1 & Hf1 & Hstep2 & Hg2 & Hlast & Hc2 & Hts2).
    exists w1, w2. simpl fires. simpl run. rewrite Hstep.
    rewrite Hg1, Hres1, Hf1, Hg2, Hc2, Hts2, Hg', Hcon', Hf'.
    rewrite filter_app. simpl.
    rewrite app_nil_r.
    replace (d + 1000 + 1000 * Z.of_nat k) with (d + 1000 * Z.of_nat (S k))
      by lia.
    repeat apply conj; try reflexivity; assumption.
Qed.

Lemma countdown_times_out_on_last_tick_witness :
  exists w1 w2,
    run (fires 29) (after (opening None "yes")) = Some w1
    /\ gameState w1 = gameState (after (opening None "yes"))
    /\ filter is_resolution (console w1)
       = filter is_resolution (console (after (opening None "yes")))
    /\ fresh w1 = fresh (after (opening None "yes"))
    /\ step Fire w1 = Some w2
    /\ gameState w2 = gameState (after (opening None "yes"))
    /\ last (console w2) = Some (TimesUp two_plus_two)
    /\ clock w2 = 1000 + 1000 * Z.of_nat 29
    /\ timers w2
       = [mkTimer 0 (1000 + 1000 * Z.of_nat 29 + 1000) (Some 1000)
            (tick 0 true two_plus_two);
          mkTimer (fresh (after (opening None "yes")))
            (1000 + 1000 * Z.of_nat 29 + 2000) None advance].
Proof.
  apply (countdown_times_out_on_last_tick 29 (after (opening None "yes")) 0
           1000 two_plus_two).
  - vm_compute. reflexivity.
  - vm_compute. reflexivity.
  - vm_compute. discriminate.
  - vm_compute. discriminate.
Defined.

(** ** The two ladders of the report *)

Lemma ge_threshold_mono (x : JS.number) (k1 k2 : Z) :
  k1 <= k2 -> JS.ge x k2 = true -> JS.ge x k1 = true.
Proof.
  intros Hk. destruct x as [q| | |]; simpl; try done.
  intros H. apply Qle_bool_iff in H. apply Qle_bool_iff.
  eapply Qle_trans; [|exact H].
  rewrite <- Zle_Qle. exact Hk.
Qed.

(** X12.  The grade and the feedback line of one report never disagree,
    whatever the score and the total (a zero total included): the feedback
    is the first line exactly for 'A+' and 'A', one of the first two
    exactly for 'C' and better, and the last line only with an 'F'. *)
Theorem grade_agrees_with_feedback (score totalPossible : Z) :
  let g := calculateGrade score totalPossible in
  let f := final_feedback score totalPossible in
  (f = Outstanding <-> 4 <= grade_rank g)
  /\ (f = Outstanding \/ f = GreatJob <-> 2 <= grade_rank g)
  /\ (f = KeepLearning -> g = GradeF)
  /\ (g = GradeD -> f = GoodEffort).
Proof.
  unfold calculateGrade, final_feedback.
  set (p := percentage_of score totalPossible).
  pose proof (ge_threshold_mono p 80 90 ltac:(lia)) as H98.
  pose proof (ge_threshold_mono p 70 80 ltac:(lia)) as H87.
  pose proof (ge_threshold_mono p 60 70 ltac:(lia)) as H76.
  pose proof (ge_threshold_mono p 50 60 ltac:(lia)) as H65.
  pose proof (ge_threshold_mono p 40 50 ltac:(lia)) as H54.
  destruct (JS.ge p 90), (JS.ge p 80), (JS.ge p 70), (JS.ge p 60),
    (JS.ge p 50), (JS.ge p 40); simpl;
    try (specialize (H98 eq_refl)); try (specialize (H87 eq_refl));
    try (specialize (H76 eq_refl)); try (specialize (H65 eq_refl));
    try (specialize (H54 eq_refl)); try discriminate.
  all: repeat apply conj; try split; intros; try lia; try discriminate;
    try reflexivity; try (left; reflexivity); try (right; reflexivity).
  all: match goal with H : _ \/ _ |- _ => destruct H; discriminate end.
Qed.

Lemma percentage_of_mono (score1 score2 totalPossible k : Z) :
  0 < totalPossible -> score1 <= score2 ->
  JS.ge (percentage_of score1 totalPossible) k = true ->
  JS.ge (percentage_of score2 totalPossible) k = true.
Proof.
  intros Ht Hs. unfold percentage_of, JS.div.
  replace (totalPossible =? 0) with false by (symmetry; apply Z.eqb_neq; lia).
  simpl. intros H. apply Qle_bool_iff in H. apply Qle_bool_iff.
  eapply Qle_trans; [exact H|].
  apply Qmult_le_compat_r; [|discriminate].
  apply Qmult_le_compat_r.
  - rewrite <- Zle_Qle. exact Hs.
  - apply Qinv_le_0_compat. rewrite <- (Zle_Qle 0). lia.
Qed.

(** X13.  For a positive total, a higher score never gets a lower grade. *)
Theorem grade_grows_with_score (score1 score2 totalPossible : Z) :
  0 < totalPossible -> score1 <= score2 ->
  grade_rank (calculateGrade score1 totalPossible)
  <= grade_rank (calculateGrade score2 totalPossible).
Proof.
  intros Ht Hs. unfold calculateGrade.
  pose proof (percentage_of_mono score1 score2 totalPossible 90 Ht Hs) as H90.
  pose proof (percentage_of_mono score1 score2 totalPossible 80 Ht Hs) as H80.
  pose proof (percentage_of_mono score1 score2 totalPossible 70 Ht Hs) as H70.
  pose proof (percentage_of_mono score1 score2 totalPossible 60 Ht Hs) as H60.
  pose proof (percentage_of_mono score1 score2 totalPossible 50 Ht Hs) as H50.
  destruct (JS.ge (percentage_of score1 totalPossible) 90);
    [rewrite (H90 eq_refl); simpl; lia|].
  destruct (JS.ge (percentage_of score1 totalPossible) 80).
  { rewrite (H80 eq_refl).
    destruct (JS.ge (percentage_of score2 totalPossible) 90); simpl; lia. }
  destruct (JS.ge (percentage_of score1 totalPossible) 70).
  { rewrite (H70 eq_refl).
    destruct (JS.ge (percentage_of score2 totalPossible) 90),
      (JS.ge (percentage_of score2 totalPossible) 80); simpl; lia. }
  destruct (JS.ge (percentage_of score1 totalPossible) 60).
  { rewrite (H60 eq_refl).
    destruct (JS.ge (percentage_of score2 totalPossible) 90),
      (JS.ge (percentage_of score2 totalPossible) 80),
      (JS.ge (percentage_of score2 totalPossible) 70); simpl; lia. }
  destruct (JS.ge (percentage_of score1 totalPossible) 50).
  { rewrite (H50 eq_refl).
    destruct (JS.ge (percentage_of score2 totalPossible) 90),
      (JS.ge (percentage_of score2 totalPossible) 80),
      (JS.ge (percentage_of score2 totalPossible) 70),
      (JS.ge (percentage_of score2 totalPossible) 60); simpl; lia. }
  destruct (JS.ge (percentage_of score2 totalPossible) 90),
    (JS.ge (percentage_of score2 totalPossible) 80),
    (JS.ge (percentage_of score2 totalPossible) 70),
    (JS.ge (percentage_of score2 totalPossible) 60),
    (JS.ge (percentage_of score2 totalPossible) 50); simpl; lia.
Qed.

Lemma grade_grows_with_score_witness :
  grade_rank (calculateGrade 5 10) <= grade_rank (calculateGrade 9 10).
Proof. apply grade_grows_with_score; lia. Defined.

(** ** Categories that are never counted *)

Lemma add_category_inherited (stats : gmap string CategoryStat) (q : Question)
    (c : string) :
  inherited c = true -> stats !! c = None -> add_category stats q !! c = None.
Proof.
  intros Hin Hnone. destruct (decide (category q = c)) as [<-|Hne].
  - unfold add_category. rewrite Hnone, Hin. rewrite Hnone. exact Hnone.
  - by rewrite add_category_other.
Qed.

(** X17.  A category whose name is a property every object inherits
    ("constructor", "toString", "__proto__", ...) never gets an entry in
    the breakdown, however many questions carry it: for such a name
    [stats[q.category]] is truthy from the start, so no entry is created
    and the two updates land elsewhere. *)
Theorem inherited_category_is_left_out (qs : list Question)
    (questionsAnswered : Z) (c : string) :
  inherited c = true -> categoryStats qs questionsAnswered !! c = None.
Proof.
  intros Hin. unfold categoryStats.
  generalize (filter_indexed (fun _ i => i <? questionsAnswered) qs).
  intros l.
  assert (forall stats : gmap string CategoryStat,
             stats !! c = None -> fold_left add_category l stats !! c = None)
    as H.
  { induction l as [|q l IH]; intros stats Hs; simpl; [exact Hs|].
    apply IH. by apply add_category_inherited. }
  apply H. apply lookup_empty.
Qed.

Lemma inherited_category_is_left_out_witness :
  categoryStats
    [mkQuestion "Which function builds an object?" ["a"; "b"; "c"; "d"] 0
       "constructor" 5] 1 !! "constructor" = None.
Proof. apply inherited_category_is_left_out. reflexivity. Defined.

(** ** Invariants of the event loop *)

(** The result of [nextQuestion], case by case. *)
Lemma nextQuestion_cases (awaited : bool) (w : World) :
  nextQuestion awaited w = Return tt (ended w)
  \/ nextQuestion awaited w = Throw JS.TypeError w
  \/ exists cq, nextQuestion awaited w = Return tt (asked awaited cq w).
Proof.
  destruct (negb (gameActive (gameState w))
            || (Z.of_nat (length (questions (gameState w)))
                <=? currentQuestionIndex (gameState w))) eqn:E.
  - left. unfold nextQuestion. unfold mbind at 1. unfold M_bind, get.
    rewrite E. apply endGame_ended.
  - destruct (element_at (questions (gameState w))
                (currentQuestionIndex (gameState w))) as [cq|] eqn:Ecq.
    + right. right. exists cq. apply nextQuestion_asks; [|exact Ecq].
      apply orb_false_iff in E as [E _]. by destruct (gameActive (gameState w)).
    + right. left. unfold nextQuestion. unfold mbind at 1. unfold M_bind, get.
      rewrite E, Ecq. reflexivity.
Qed.

(** The result of [processAnswer], case by case. *)
Lemma processAnswer_cases (q : Question) (s : string) (answerTime : Z)
    (w : World) :
  (exists b m, processAnswer q s answerTime w
               = Return b (with_console (fun c => c ++ [m]) w))
  \/ processAnswer q s answerTime w = Throw JS.ReferenceError w
  \/ (0 < timePerQuestion (gameState w)
      /\ exists p, processAnswer q s answerTime w
         = Return true
             (with_gameState (fun g => set_score (score g + p) g)
                (with_console (fun c => c ++ [CorrectWithBonus p]) w))).
Proof.
  unfold processAnswer.
  destruct (JS.parseInt s) as [n|]; [|left; eexists _, _; reflexivity].
  destruct ((n - 1 <? 0) || (Z.of_nat (length (options q)) <=? n - 1));
    [left; eexists _, _; reflexivity|].
  destruct (n - 1 =? answer q); [|left; eexists _, _; reflexivity].
  unfold_M. simpl.
  destruct (0 <? timePerQuestion (gameState w)) eqn:Et; simpl;
    [|right; left; reflexivity].
  destruct (JS.lt_half answerTime (timePerQuestion (gameState w)));
    [|right; left; reflexivity].
  right. right. split; [by apply Z.ltb_lt|]. eexists. reflexivity.
Qed.

Section Invariant.

Variable P : World -> Prop.

(** [P] looks at [gameState] and at the timers only. *)
Hypothesis P_ext : forall w w',
  gameState w' = gameState w -> timers w' = timers w -> P w -> P w'.

(** What [P] has to survive in [gameState] ... *)
Hypothesis P_gameActive : forall w b,
  P w -> P (with_gameState (set_gameActive b) w).
Hypothesis P_questions : forall w qs,
  P w -> P (with_gameState (set_questions qs) w).
Hypothesis P_start : forall w,
  P w -> P (with_gameState
              (fun g => set_totalTime 0
                          (set_score 0 (set_currentQuestionIndex 0 g))) w).
Hypothesis P_next : forall w,
  P w -> P (with_gameState
              (fun g => set_currentQuestionIndex (currentQuestionIndex g + 1) g)
              w).
Hypothesis P_time : forall w t,
  P w -> P (with_gameState (fun g => set_totalTime (totalTime g + t) g) w).
Hypothesis P_timer_off : forall w,
  P w -> P (with_gameState (set_timePerQuestion 0) w).
Hypothesis P_bonus : forall w p,
  0 < timePerQuestion (gameState w) ->
  P w -> P (with_gameState (fun g => set_score (score g + p) g) w).

(** ... and in the timer queue. *)
Hypothesis P_clear : forall w h,
  P w -> P (with_timers (filter (fun t => handle t ≠ h)) w).
Hypothesis P_timeout : forall w h d f,
  P w -> P (with_timers (fun ts => ts ++ [mkTimer h d None f]) w).
Hypothesis P_set_fn : forall w h f,
  P w -> P (with_timers (map (set_fn h f)) w).
Hypothesis P_reschedule : forall w h d,
  P w -> P (with_timers (map (reschedule h d)) w).
Hypothesis P_countdown : forall w d f,
  0 < timePerQuestion (gameState w) ->
  P w ->
  P (with_gameState (set_timerId (Some (fresh w)))
       (with_timers (fun ts => ts ++ [mkTimer (fresh w) d (Some 1000) f])
          (timer_cleared w))).

Lemma keeps_ret {A : Type} (a : A) : keeps P (mret a).
Proof. intros w H. exact H. Qed.

Lemma keeps_bind {A B : Type} (m : M A) (f : A -> M B) :
  keeps P m -> (forall a, keeps P (f a)) -> keeps P (m ≫= f).
Proof.
  intros Hm Hf w H. unfold mbind, M_bind. specialize (Hm w H).
  destruct (m w) as [a w1|e w1]; simpl in *; [by apply Hf | exact Hm].
Qed.

Lemma keeps_log (m : message) : keeps P (log m).
Proof. intros w H. simpl. by apply (P_ext w). Qed.

Lemma keeps_rl_question (k : continuation) : keeps P (rl_question k).
Proof.
  intros w H. unfold rl_question, update. simpl.
  destruct (questionCallback w); [exact H | by apply (P_ext w)].
Qed.

Lemma keeps_rl_close : keeps P rl_close.
Proof. intros w H. simpl. by apply (P_ext w). Qed.

Lemma keeps_setTimeout (f : callback) (delay : Z) : keeps P (setTimeout f delay).
Proof.
  intros w H. unfold setTimeout, add_timer. simpl.
  apply (P_ext (with_timers
                  (fun ts => ts ++ [mkTimer (fresh w) (clock w + delay) None f])
                  w)); [reflexivity | reflexivity |].
  by apply P_timeout.
Qed.

Lemma P_timer_cleared (w : World) : P w -> P (timer_cleared w).
Proof.
  intros H. unfold timer_cleared.
  destruct (timerId (gameState w)); [by apply P_clear | exact H].
Qed.

Lemma P_countdown_stopped (w : World) : P w -> P (countdown_stopped w).
Proof.
  intros H. unfold countdown_stopped.
  destruct (0 <? timePerQuestion (gameState w)); [|exact H].
  apply (P_ext (timer_cleared w)); [reflexivity | reflexivity |].
  by apply P_timer_cleared.
Qed.

Lemma P_ended (w : World) : P w -> P (ended w).
Proof.
  intros H.
  apply (P_ext (timer_cleared (with_gameState (set_gameActive false) w))).
  - unfold ended. destruct (questionCallback w); reflexivity.
  - unfold ended. destruct (questionCallback w); reflexivity.
  - apply P_timer_cleared. by apply P_gameActive.
Qed.

Lemma P_asked (awaited : bool) (cq : Question) (w : World) :
  P w -> P (asked awaited cq w).
Proof.
  intros H. unfold asked.
  destruct (0 <? timePerQuestion (gameState w)) eqn:Et.
  - apply Z.ltb_lt in Et.
    apply (P_ext (with_gameState (set_timerId (Some (fresh w)))
                    (with_timers
                       (fun ts => ts ++ [mkTimer (fresh w) (clock w + 1000)
                                           (Some 1000)
                                           (tick (timePerQuestion (gameState w))
                                              false cq)])
                       (timer_cleared w)))).
    + destruct (questionCallback w); simpl;
        unfold timer_cleared; simpl; destruct (timerId (gameState w));
        reflexivity.
    + destruct (questionCallback w); simpl;
        unfold timer_cleared; simpl; destruct (timerId (gameState w));
        reflexivity.
    + by apply P_countdown.
  - apply (P_ext w); [ | | exact H];
      destruct (questionCallback w); reflexivity.
Qed.

Lemma keeps_nextQuestion (awaited : bool) : keeps P (nextQuestion awaited).
Proof.
  intros w H.
  destruct (nextQuestion_cases awaited w) as [E|[E|[cq E]]]; rewrite E; simpl.
  - by apply P_ended.
  - exact H.
  - by apply P_asked.
Qed.

Lemma keeps_processAnswer (q : Question) (s : string) (answerTime : Z) :
  keeps P (processAnswer q s answerTime).
Proof.
  intros w H.
  destruct (processAnswer_cases q s answerTime w)
    as [(b & m & E)|[E|(Ht & p & E)]]; rewrite E; simpl.
  - by apply (P_ext w).
  - exact H.
  - apply P_bonus; [exact Ht|]. by apply (P_ext w).
Qed.

Lemma keeps_try_main (m : M unit) : keeps P m -> keeps P (try_main m).
Proof.
  intros Hm w H. unfold try_main. specialize (Hm w H).
  destruct (m w) as [a w1|e w1]; simpl in *; [exact Hm|].
  by apply (P_ext w1).
Qed.

Lemma keeps_detached (m : M unit) : keeps P m -> keeps P (detached m).
Proof.
  intros Hm w H. unfold detached. specialize (Hm w H).
  destruct (m w) as [a w1|e w1]; simpl in *; [exact Hm|].
  by apply (P_ext w1).
Qed.

Lemma keeps_nextQuestion_resume (q : Question) (startTime : Z) (s : string) :
  keeps P (nextQuestion_resume q startTime s).
Proof.
  intros w H. unfold nextQuestion_resume.
  unfold mbind at 1 2 3. unfold M_bind. unfold Date_now, get.
  rewrite countdown_stopped_run.
  pose proof (P_countdown_stopped w H) as H1.
  destruct (String.eqb (JS.toLowerCase s) "quit").
  { rewrite endGame_ended. simpl. by apply P_ended. }
  destruct (String.eqb (JS.toLowerCase s) "skip").
  { revert H1. generalize (countdown_stopped w). intros w1 H1.
    apply (keeps_bind (log QuestionSkipped)); [apply keeps_log | intros _ | exact H1].
    apply keeps_bind; [intros w2 H2; by apply P_next | intros _].
    apply keeps_bind; [apply keeps_setTimeout | intros _; apply keeps_ret]. }
  revert H1. generalize (countdown_stopped w). intros w1 H1.
  apply (keeps_bind (processAnswer q s _)); [apply keeps_processAnswer | intros _ | exact H1].
  apply keeps_bind; [intros w2 H2; by apply P_next | intros _].
  apply keeps_bind; [intros w2 H2; by apply P_time | intros _].
  apply keeps_bind; [apply keeps_setTimeout | intros _; apply keeps_ret].
Qed.

Lemma keeps_showMenu : keeps P showMenu.
Proof.
  apply keeps_bind; [apply keeps_log | intros _; apply keeps_rl_question].
Qed.

Lemma keeps_resume (k : continuation) (line : string) :
  keeps P (resume k line).
Proof.
  destruct k as [| |q st aw|]; simpl.
  - apply keeps_try_main. unfold showMenu_resume.
    destruct (String.eqb (JS.trim line) "1").
    { intros w H. unfold startGame. unfold_io.
      apply (P_ext (with_gameState
                      (fun g => set_totalTime 0
                                  (set_score 0 (set_currentQuestionIndex 0 g)))
                      (with_gameState (set_gameActive true) w))).
      - destruct (questionCallback w); reflexivity.
      - destruct (questionCallback w); reflexivity.
      - apply P_start. by apply P_gameActive. }
    destruct (String.eqb (JS.trim line) "2").
    { apply keeps_bind; [apply keeps_log | intros _; apply keeps_showMenu]. }
    destruct (String.eqb (JS.trim line) "3").
    { apply keeps_bind; [apply keeps_log | intros _; apply keeps_rl_close]. }
    apply keeps_bind; [apply keeps_log | intros _; apply keeps_showMenu].
  - apply keeps_try_main. unfold startGame_resume.
    apply keeps_bind; [|intros _; apply keeps_nextQuestion].
    destruct (String.eqb (JS.toLowerCase (JS.trim line)) "no");
      [intros w H; by apply P_timer_off | apply keeps_ret].
  - destruct aw; [apply keeps_try_main | apply keeps_detached];
      apply keeps_nextQuestion_resume.
  - unfold play_again_callback.
    destruct (String.eqb (JS.toLowerCase line) "yes").
    + apply keeps_bind; [apply keeps_log | intros _].
      apply keeps_try_main. unfold displayWelcome.
      apply keeps_bind; [|intros _; intros w H; by apply (P_ext w)].
      apply keeps_bind; [apply keeps_log | intros _].
      apply keeps_bind; [intros w H; exact H | intros gs; apply keeps_log].
    + apply keeps_bind; [apply keeps_log | intros _; apply keeps_rl_close].
Qed.

Lemma keeps_fire (t : timer) : keeps P (fire t).
Proof.
  unfold fire.
  apply keeps_bind; [intros w H; by apply (P_ext w) | intros _].
  apply keeps_bind.
  { destruct (period t); intros w H; [by apply P_reschedule | by apply P_clear]. }
  intros _. unfold run_callback.
  destruct (fn t) as [timeLeft answered q| |].
  - apply keeps_bind; [|intros f w H; by apply P_set_fn].
    unfold run_tick.
    apply keeps_bind; [apply keeps_log | intros _].
    apply keeps_bind; [|intros a; apply keeps_ret].
    destruct (timeLeft - 1 <=? 0); [|apply keeps_ret].
    destruct (negb answered); [|apply keeps_ret].
    apply keeps_bind; [apply keeps_log | intros _].
    apply keeps_bind; [apply keeps_setTimeout | intros _; apply keeps_ret].
  - apply keeps_bind; [intros w H; by apply P_next | intros _].
    apply keeps_detached, keeps_nextQuestion.
  - apply keeps_detached, keeps_nextQuestion.
Qed.

Lemma P_settle (m : M unit) (w : World) : keeps P m -> P w -> P (settle (m w)).
Proof.
  intros Hm H. specialize (Hm w H). unfold settle.
  destruct (m w) as [a w1|e w1]; simpl in *; [exact Hm | by apply (P_ext w1)].
Qed.

(** Every event keeps [P]. *)
Lemma step_keeps (e : event) (w w' : World) :
  step e w = Some w' -> P w -> P w'.
Proof.
  unfold step. destruct (state w); try discriminate.
  destruct e as [file|delay text| | |].
  - destruct (reading w); [|discriminate]. intros [= <-] H.
    apply P_settle; [|by apply (P_ext w)].
    unfold main_resume. apply keeps_try_main.
    apply keeps_bind.
    { unfold loadQuestions_resume. destruct file as [qs|].
      - apply keeps_bind; [intros w1 H1; by apply P_questions | intros _; apply keeps_ret].
      - apply keeps_bind; [apply keeps_log | intros _].
        apply keeps_bind; [intros w1 H1; by apply P_questions | intros _; apply keeps_ret]. }
    intros _. apply keeps_bind; [intros w1 H1; exact H1 | intros gs].
    apply keeps_bind; [apply keeps_log | intros _; apply keeps_showMenu].
  - destruct (_ && _); [|discriminate]. intros [= <-] H.
    apply P_settle; [|by apply (P_ext w)].
    intros w1 H1. unfold on_line.
    destruct (questionCallback w1) as [k|]; [|exact H1].
    apply keeps_resume. by apply (P_ext w1).
  - destruct (earliest (timers w)) as [t|]; [|discriminate].
    intros [= <-] H. apply P_settle; [apply keeps_fire | exact H].
  - intros [= <-] H. apply P_settle; [|exact H].
    unfold on_SIGINT.
    apply keeps_bind; [apply keeps_log | intros _].
    apply keeps_bind; [intros w1 H1; exact H1 | intros gs].
    apply keeps_bind.
    { intros w1 H1. destruct (timerId gs); simpl; [by apply P_clear | exact H1]. }
    intros _. apply keeps_bind; [apply keeps_rl_close | intros _].
    intros w1 H1. by apply (P_ext w1).
  - destruct (reading w); [|discriminate]. intros [= <-] H.
    by apply (P_ext w).
Qed.

Lemma run_keeps (es : list event) (w w' : World) :
  run es w = Some w' -> P w -> P w'.
Proof.
  revert w. induction es as [|e es IH]; intros w; simpl.
  - by intros [= <-].
  - destruct (step e w) as [w1|] eqn:E; [|discriminate].
    intros Hrun H. apply (IH w1 Hrun). by apply (step_keeps e w).
Qed.

End Invariant.

(** X14.  Over any run of events [timePerQuestion] either keeps its value
    or has become 0: nothing ever sets it to anything else, so once the
    timer is off it stays off for the rest of the process, and from the
    start of the script it is 30 or 0. *)
Theorem timePerQuestion_only_drops_to_zero (es : list event) (w w' : World) :
  run es w = Some w' ->
  timePerQuestion (gameState w') = timePerQuestion (gameState w)
  \/ timePerQuestion (gameState w') = 0.
Proof.
  intros Hrun.
  apply (run_keeps
           (fun w1 => timePerQuestion (gameState w1) = timePerQuestion (gameState w)
                      \/ timePerQuestion (gameState w1) = 0))
    with (es := es) (w := w); try exact Hrun; try (left; reflexivity).
  all: try (intros; simpl; rewrite ?gameState_timer_cleared; assumption).
  - intros w1 w2 Hg _ H. rewrite Hg. exact H.
  - intros. right. reflexivity.
Qed.

Lemma timePerQuestion_only_drops_to_zero_witness :
  timePerQuestion
    (gameState (after (opening None "no" ++ [Line 1000 "quit"; Line 0 "yes"]
                       ++ opening None "yes")))
  = timePerQuestion (gameState boot)
  \/ timePerQuestion
       (gameState (after (opening None "no" ++ [Line 1000 "quit"; Line 0 "yes"]
                          ++ opening None "yes")))
     = 0.
Proof.
  apply (timePerQuestion_only_drops_to_zero
           (opening None "no" ++ [Line 1000 "quit"; Line 0 "yes"]
            ++ opening None "yes")).
  vm_compute. reflexivity.
Defined.

(** X15.  The index never becomes negative: it is only ever set to 0 or
    incremented, by whatever event and in whatever order. *)
Theorem index_never_negative (es : list event) (w w' : World) :
  run es w = Some w' -> 0 <= index_of w -> 0 <= index_of w'.
Proof.
  intros Hrun H0.
  apply (run_keeps (fun w1 => 0 <= index_of w1))
    with (es := es) (w := w); try exact Hrun; try exact H0.
  all: unfold index_of.
  all: try (intros; simpl; rewrite ?gameState_timer_cleared; assumption).
  - intros w1 w2 Hg _ H. rewrite Hg. exact H.
  - intros; simpl; lia.
  - intros; simpl; lia.
Qed.

Lemma index_never_negative_witness :
  0 <= index_of (after (opening (Some [two_plus_two]) "yes" ++ fires 30
                        ++ [Line 700 "skip"; Fire])).
Proof.
  apply (index_never_negative
           (opening (Some [two_plus_two]) "yes" ++ fires 30
            ++ [Line 700 "skip"; Fire]) boot).
  - vm_compute. reflexivity.
  - vm_compute. discriminate.
Defined.

(** X16.  With the timer off the score cannot move: over any run of
    events that starts with [timePerQuestion] at most 0 and the score at 0
    (a game with the timer off, or any number of them played again), the
    score is still 0 at the end, whatever was answered. *)
Theorem untimed_game_never_scores (es : list event) (w w' : World) :
  run es w = Some w' ->
  timePerQuestion (gameState w) <= 0 -> score_of w = 0 ->
  score_of w' = 0 /\ timePerQuestion (gameState w') <= 0.
Proof.
  intros Hrun Ht Hs.
  assert (timePerQuestion (gameState w') <= 0 /\ score_of w' = 0) as [H1 H2];
    [|split; assumption].
  apply (run_keeps
           (fun w1 => timePerQuestion (gameState w1) <= 0 /\ score_of w1 = 0))
    with (es := es) (w := w); try exact Hrun; try (split; assumption).
  all: unfold score_of.
  all: try (intros; simpl; rewrite ?gameState_timer_cleared; assumption).
  - intros w1 w2 Hg _ H. rewrite Hg. exact H.
  - intros w1 [H1 H2]. simpl. split; [exact H1 | reflexivity].
  - intros w1 [H1 H2]. simpl. split; [lia | exact H2].
  - intros w1 p Hpos [H1 H2]. lia.
Qed.

Lemma untimed_game_never_scores_witness :
  score_of (after (opening None "no" ++ [Line 3000 "1"; Fire; Line 2000 "3"]))
  = 0
  /\ timePerQuestion
       (gameState (after (opening None "no"
                          ++ [Line 3000 "1"; Fire; Line 2000 "3"]))) <= 0.
Proof.
  apply (untimed_game_never_scores [Line 3000 "1"; Fire; Line 2000 "3"]
           (after (opening None "no"))).
  - vm_compute. reflexivity.
  - vm_compute. discriminate.
  - reflexivity.
Defined.

(** *** Countdowns *)

Lemma countdowns_timeout (ts : list timer) (h : nat) (d : Z) (f : callback) :
  countdowns (ts ++ [mkTimer h d None f]) = countdowns ts.
Proof. unfold countdowns. rewrite omap_app. simpl. apply app_nil_r. Qed.

Lemma countdowns_interval (ts : list timer) (h : nat) (d p : Z) (f : callback) :
  countdowns (ts ++ [mkTimer h d (Some p) f]) = countdowns ts ++ [h].
Proof. unfold countdowns. rewrite omap_app. reflexivity. Qed.

Lemma countdowns_cons (t : timer) (ts : list timer) :
  countdowns (t :: ts)
  = match period t with
    | Some _ => handle t :: countdowns ts
    | None => countdowns ts
    end.
Proof. unfold countdowns. simpl. destruct (period t); reflexivity. Qed.

Lemma countdowns_set_fn (ts : list timer) (h : nat) (f : callback) :
  countdowns (map (set_fn h f) ts) = countdowns ts.
Proof.
  induction ts as [|t ts IH]; [reflexivity|].
  rewrite map_cons, !countdowns_cons, IH.
  unfold set_fn. destruct (Nat.eqb (handle t) h); reflexivity.
Qed.

Lemma countdowns_reschedule (ts : list timer) (h : nat) (d : Z) :
  countdowns (map (reschedule h d) ts) = countdowns ts.
Proof.
  induction ts as [|t ts IH]; [reflexivity|].
  rewrite map_cons, !countdowns_cons, IH.
  unfold reschedule. destruct (Nat.eqb (handle t) h); reflexivity.
Qed.

Lemma countdowns_clear (ts : list timer) (h : nat) :
  countdowns (filter (fun t => handle t ≠ h) ts)
  = filter (fun h' => h' ≠ h) (countdowns ts).
Proof.
  induction ts as [|t ts IH]; [reflexivity|].
  destruct (decide (handle t ≠ h)) as [Hne|Heq].
  - rewrite filter_cons_True by exact Hne. rewrite !countdowns_cons, IH.
    destruct (period t); [|reflexivity].
    by rewrite filter_cons_True.
  - rewrite filter_cons_False by exact Heq. rewrite countdowns_cons, IH.
    destruct (period t); [|reflexivity].
    by rewrite filter_cons_False.
Qed.

Lemma one_countdown_clear (w : World) (h : nat) :
  one_countdown w ->
  one_countdown (with_timers (filter (fun t => handle t ≠ h)) w).
Proof.
  unfold one_countdown. simpl. rewrite countdowns_clear.
  intros [E|(h0 & E & Hid)]; rewrite E.
  - left. reflexivity.
  - destruct (decide (h0 ≠ h)).
    + right. exists h0. by rewrite filter_cons_True.
    + left. by rewrite filter_cons_False.
Qed.

Lemma countdowns_timer_cleared (w : World) :
  one_countdown w -> countdowns (timers (timer_cleared w)) = [].
Proof.
  unfold one_countdown, timer_cleared.
  intros [E|(h0 & E & Hid)].
  - destruct (timerId (gameState w)); simpl; [|exact E].
    rewrite countdowns_clear, E. reflexivity.
  - rewrite Hid. simpl. rewrite countdowns_clear, E.
    rewrite filter_cons_False; [reflexivity|]. intros H. by apply H.
Qed.

(** X18.  Never two countdowns at once: over any run of events that
    starts with at most one countdown, held by [timerId], there is at most
    one countdown in the timer queue at the end, and it is the one
    [timerId] holds, so that [clearInterval(gameState.timerId)] stops
    whatever countdown is running. *)
Theorem never_two_countdowns (es : list event) (w w' : World) :
  run es w = Some w' -> one_countdown w -> one_countdown w'.
Proof.
  intros Hrun H0.
  apply (run_keeps one_countdown) with (es := es) (w := w);
    try exact Hrun; try exact H0.
  all: try (intros; assumption).
  - intros w1 w2 Hg Ht H. unfold one_countdown in *. rewrite Hg, Ht. exact H.
  - intros w1 h H. by apply one_countdown_clear.
  - intros w1 h d f H. unfold one_countdown in *. simpl.
    rewrite countdowns_timeout. exact H.
  - intros w1 h f H. unfold one_countdown in *. simpl.
    rewrite countdowns_set_fn. exact H.
  - intros w1 h d H. unfold one_countdown in *. simpl.
    rewrite countdowns_reschedule. exact H.
  - intros w1 d f _ H. unfold one_countdown. simpl.
    rewrite countdowns_interval, (countdowns_timer_cleared w1 H).
    right. exists (fresh w1). split; reflexivity.
Qed.

Lemma never_two_countdowns_witness :
  one_countdown (after (opening None "yes" ++ fires 33 ++ [Line 100 "3"; Fire])).
Proof.
  apply (never_two_countdowns
           (opening None "yes" ++ fires 33 ++ [Line 100 "3"; Fire]) boot).
  - vm_compute. reflexivity.
  - left. reflexivity.
Defined.

(** ** From one question to the next *)

Lemma nextQuestion_ends (awaited : bool) (w : World) :
  gameActive (gameState w) = false
  \/ Z.of_nat (length (questions (gameState w)))
     <= currentQuestionIndex (gameState w) ->
  nextQuestion awaited w = Return tt (ended w).
Proof.
  intros H. unfold nextQuestion. unfold mbind at 1. unfold M_bind, get.
  replace (negb (gameActive (gameState w))
           || (Z.of_nat (length (questions (gameState w)))
               <=? currentQuestionIndex (gameState w))) with true.
  - apply endGame_ended.
  - symmetry. apply orb_true_iff. destruct H as [H|H].
    + left. by rewrite H.
    + right. by apply Z.leb_le.
Qed.

(** X19.  When the delayed [nextQuestion] of an answered or skipped
    question runs: if the game is no longer active or the index has
    reached the number of questions, the game ends: it is marked inactive
    and the report of the state as it is is printed; otherwise the question
    at the index is shown and, no callback being pending, its answer is
    awaited.  Index, score and total time are the same before and after. *)
Theorem next_question_or_game_over (w : World) (t : timer) :
  state w = Running ->
  earliest (timers w) = Some t ->
  fn t = next ->
  exists w', step Fire w = Some w'
    /\ progress w' = progress w
    /\ (gameActive (gameState w) = false
        \/ Z.of_nat (length (questions (gameState w)))
           <= currentQuestionIndex (gameState w) ->
        gameActive (gameState w') = false
        /\ last (console w')
           = Some (GameOver (report (set_gameActive false (gameState w))))
        /\ (questionCallback w = None -> questionCallback w' = Some play_again))
    /\ (forall cq,
          gameActive (gameState w) = true ->
          element_at (questions (gameState w))
            (currentQuestionIndex (gameState w)) = Some cq ->
          gameActive (gameState w') = true
          /\ last (console w')
             = Some (QuestionShown cq (currentQuestionIndex (gameState w))
                       (Z.of_nat (length (questions (gameState w))))
                       (if 0 <? timePerQuestion (gameState w)
                        then Some (timePerQuestion (gameState w)) else None))
          /\ (questionCallback w = None ->
              questionCallback w'
              = Some (user_answer cq (Z.max (clock w) (due t)) false))).
Proof.
  intros Hs Ht Hfn. unfold step. rewrite Hs, Ht.
  unfold fire, run_callback. rewrite Hfn.
  unfold mbind at 1 2. unfold M_bind. unfold update.
  set (w0 := match period t with
             | Some d =>
                 with_timers (map (reschedule (handle t) d))
                   (with_clock (Z.max (clock w) (due t)) w)
             | None =>
                 with_timers (filter (fun t' => handle t' ≠ handle t))
                   (with_clock (Z.max (clock w) (due t)) w)
             end).
  assert (gameState w0 = gameState w /\ console w0 = console w
          /\ questionCallback w0 = questionCallback w
          /\ clock w0 = Z.max (clock w) (due t)) as (Hg & Hc & Hq & Hcl).
  { subst w0. destruct (period t); repeat apply conj; reflexivity. }
  replace (match period t with
           | Some d => fun w1 => Return () (with_timers (map (reschedule (handle t) d)) w1)
           | None => fun w1 => Return () (with_timers (filter (fun t' => handle t' ≠ handle t)) w1)
           end (with_clock (Z.max (clock w) (due t)) w))
    with (Return tt w0) by (subst w0; destruct (period t); reflexivity).
  destruct (detached_nextQuestion w0) as (w' & Hd & Hprog).
  exists w'. rewrite Hd. split; [reflexivity|].
  split.
  { rewrite Hprog. unfold progress, index_of, score_of, time_of.
    by rewrite Hg. }
  split.
  - intros Hend. rewrite <- Hg in Hend.
    unfold detached in Hd. rewrite (nextQuestion_ends false w0 Hend) in Hd.
    injection Hd as <-.
    rewrite gameState_ended, console_ended, Hg. simpl.
    repeat apply conj; [reflexivity | apply last_snoc |].
    intros Hnone. unfold ended. rewrite Hq, Hnone. reflexivity.
  - intros cq Hact Hcq. rewrite <- Hg in Hact, Hcq.
    unfold detached in Hd. rewrite (nextQuestion_asks false cq w0 Hact Hcq) in Hd.
    injection Hd as <-.
    unfold asked. rewrite Hg, Hq, Hcl.
    destruct (0 <? timePerQuestion (gameState w)); simpl.
    + destruct (questionCallback w) eqn:Ek; simpl;
        rewrite ?console_timer_cleared, ?gameState_timer_cleared; simpl;
        rewrite Hc, Hg; rewrite <- Hg;
        (repeat apply conj; [exact Hact | apply last_snoc |]);
        [discriminate | reflexivity].
    + destruct (questionCallback w) eqn:Ek; simpl;
        rewrite Hc, Hg; rewrite <- Hg;
        (repeat apply conj; [exact Hact | apply last_snoc |]);
        [discriminate | reflexivity].
Qed.

Lemma next_question_or_game_over_witness :
  exists w', step Fire (after (opening None "no" ++ [Line 4000 "1"])) = Some w'
    /\ progress w' = progress (after (opening None "no" ++ [Line 4000 "1"]))
    /\ last (console w')
       = Some (QuestionShown sky_color 1 2 None)
    /\ questionCallback w' = Some (user_answer sky_color 6000 false).
Proof.
  destruct (next_question_or_game_over
              (after (opening None "no" ++ [Line 4000 "1"]))
              (mkTimer 0 6000 None next))
    as (w' & Hstep & Hprog & _ & Hask);
    [vm_compute; reflexivity | vm_compute; reflexivity | reflexivity |].
  exists w'. split; [exact Hstep|]. split; [exact Hprog|].
  destruct (Hask sky_color) as (_ & Hlast & Hk);
    [vm_compute; reflexivity | vm_compute; reflexivity |].
  split; [exact Hlast | apply Hk; vm_compute; reflexivity].
Defined.
